(** * git-remote-subdir: the refspec algebra and the remote-helper protocol

    A shallow embedding of [git-remote-subdir.py].  Python [str] values are
    [string]s (characters are code points below 256, and the output of a
    subprocess is taken as already decoded), [None] is [option]'s [None],
    exceptions are values of [exn], and everything that touches the output
    file or runs a subprocess lives in the monad [M] over [World].  Logging
    goes to standard error and is left out. *)

From Stdlib Require Import String Ascii List Bool Arith ZArith Lia.
Import ListNotations.
Open Scope string_scope.

(** ** Python string operations used by the helper *)

Module Str.

(** [s.startswith(p)] *)
Fixpoint startswith (s p : string) {struct p} : bool :=
  match p with
  | EmptyString => true
  | String c p' =>
      match s with
      | EmptyString => false
      | String d s' => Ascii.eqb d c && startswith s' p'
      end
  end.

(** [s[n:]] for [n >= 0] *)
Fixpoint drop (n : nat) (s : string) : string :=
  match n with
  | O => s
  | S n' =>
      match s with
      | EmptyString => EmptyString
      | String _ s' => drop n' s'
      end
  end.

(** [s.endswith(c)] for a one-character [c] *)
Fixpoint endswith (s : string) (c : ascii) : bool :=
  match s with
  | EmptyString => false
  | String d EmptyString => Ascii.eqb d c
  | String _ s' => endswith s' c
  end.

(** [s[:-1]] *)
Fixpoint drop_last (s : string) : string :=
  match s with
  | EmptyString => EmptyString
  | String _ EmptyString => EmptyString
  | String d s' => String d (drop_last s')
  end.

(** [s.split(sep)] for a one-character separator: one more piece than
    there are separators, empty pieces kept. *)
Fixpoint split (sep : ascii) (s : string) : list string :=
  match s with
  | EmptyString => [EmptyString]
  | String c s' =>
      if Ascii.eqb c sep then EmptyString :: split sep s'
      else
        match split sep s' with
        | p :: ps => String c p :: ps
        | [] => [String c EmptyString]
        end
  end.

(** [str.isspace] on one character, for code points below 256:
    TAB..CR, FS..US, SPACE, NEL and NBSP. *)
Definition isspace (c : ascii) : bool :=
  let n := nat_of_ascii c in
  (((9 <=? n) && (n <=? 13)) || ((28 <=? n) && (n <=? 32))
   || (n =? 133) || (n =? 160))%nat.

(** Strip the trailing characters that satisfy [p]. *)
Fixpoint rstrip_by (p : ascii -> bool) (s : string) : string :=
  match s with
  | EmptyString => EmptyString
  | String c s' =>
      match rstrip_by p s' with
      | EmptyString => if p c then EmptyString else String c EmptyString
      | t => String c t
      end
  end.

(** [s.rstrip()] *)
Definition rstrip (s : string) : string := rstrip_by isspace s.

(** [s.rstrip(c)] for a one-character [c] *)
Definition rstrip_char (c : ascii) (s : string) : string :=
  rstrip_by (Ascii.eqb c) s.

(** [s.split()]: the maximal runs of non-whitespace characters. *)
Fixpoint split_ws (s : string) : list string :=
  match s with
  | EmptyString => []
  | String c s' =>
      if isspace c then split_ws s'
      else
        match s' with
        | EmptyString => [String c EmptyString]
        | String c' _ =>
            if isspace c' then String c EmptyString :: split_ws s'
            else
              match split_ws s' with
              | w :: ws => String c w :: ws
              | [] => [String c EmptyString]
              end
        end
  end.

(** Python truthiness of a string: non-empty. *)
Definition truthy (s : string) : bool :=
  match s with EmptyString => false | _ => true end.

Definition all (p : ascii -> bool) (s : string) : bool :=
  forallb p (list_ascii_of_string s).

Definition NUL : ascii := ascii_of_nat 0.
Definition TAB : ascii := ascii_of_nat 9.
Definition LF : ascii := ascii_of_nat 10.
Definition nl : string := String LF EmptyString.

(** Cut a stream into lines, each keeping its terminating newline; a
    last line without one is kept too.  This is how iterating over a
    file object and repeated [readline] see the text. *)
Fixpoint lines (s : string) : list string :=
  match s with
  | EmptyString => []
  | String c s' =>
      if Ascii.eqb c LF then nl :: lines s'
      else
        match lines s' with
        | l :: ls => String c l :: ls
        | [] => [String c EmptyString]
        end
  end.

(** [f.readline()] on the unread text: the first line (with its
    newline) and what is left; the empty string at end of file. *)
Fixpoint readline (s : string) : string * string :=
  match s with
  | EmptyString => (EmptyString, EmptyString)
  | String c s' =>
      if Ascii.eqb c LF then (nl, s')
      else let '(l, r) := readline s' in (String c l, r)
  end.

(** [s.split(sep, 1)] for a one-character separator: cut at the first
    separator only. *)
Fixpoint split1 (sep : ascii) (s : string) : list string :=
  match s with
  | EmptyString => [EmptyString]
  | String c s' =>
      if Ascii.eqb c sep then [EmptyString; s']
      else
        match split1 sep s' with
        | p :: ps => String c p :: ps
        | [] => [String c EmptyString]
        end
  end.

(** [c in s] *)
Fixpoint contains (s : string) (c : ascii) : bool :=
  match s with
  | EmptyString => false
  | String d s' => Ascii.eqb d c || contains s' c
  end.

End Str.

(** ** Exceptions and results *)

(** The Python exceptions the program can raise, with their messages. *)
Inductive exn : Type :=
| ValueError (msg : string)
| NotImplementedError (msg : string)
| RuntimeError (msg : string)
| AttributeError (msg : string)
| IndexError (msg : string)
| TypeError (msg : string)
| CalledProcessError (returncode : Z) (cmd : list string).

Inductive result (A : Type) : Type :=
| Ok (a : A)
| Raise (e : exn).

Arguments Ok {A} a.
Arguments Raise {A} e.

Definition dquote : string := String (ascii_of_nat 34) EmptyString.

(** [l, r = pieces]: unpacking a list into exactly two names. *)
Definition unpack2 (pieces : list string) : result (string * string) :=
  match pieces with
  | [l; r] => Ok (l, r)
  | [] | [_] =>
      let got := match pieces with [] => "0" | _ => "1" end in
      Raise (ValueError ("not enough values to unpack (expected 2, got "
                         ++ got ++ ")"))
  | _ => Raise (ValueError "too many values to unpack (expected 2)")
  end.

(** ['{}'.format(x)] for [x] a string or [None]. *)
Definition format_opt (x : option string) : string :=
  match x with
  | Some s => s
  | None => "None"
  end.

(** ** class RefSpec *)

Module RefSpec.

Record t : Type := mk {
  left_prefix : string;
  right_prefix : string;
  force : bool
}.

Definition parse (refspec : string) : result t :=
  let force := Str.startswith refspec "+" in
  let refspec := if force then Str.drop 1 refspec else refspec in
  match unpack2 (Str.split ":" refspec) with
  | Raise e => Raise e
  | Ok (l, r) =>
      if negb (Str.endswith l "*" && Str.endswith r "*")
      then Raise (ValueError ("Invalid refspec: " ++ refspec))
      else Ok (mk (Str.drop_last l) (Str.drop_last r) force)
  end.

Definition __str__ (self : t) : string :=
  (if force self then "+" else "") ++ left_prefix self ++ "*:"
  ++ right_prefix self ++ "*".

Definition ltr (self : t) (left_ref : string) : option string :=
  if Str.startswith left_ref (left_prefix self)
  then Some (right_prefix self
             ++ Str.drop (String.length (left_prefix self)) left_ref)
  else None.

Definition rtl (self : t) (right_ref : string) : option string :=
  if Str.startswith right_ref (right_prefix self)
  then Some (left_prefix self
             ++ Str.drop (String.length (right_prefix self)) right_ref)
  else None.

Definition with_left (self : t) (left_prefix : string)
    (force : option bool) : t :=
  let force := match force with None => RefSpec.force self | Some b => b end in
  mk left_prefix (right_prefix self) force.

Definition with_right (self : t) (right_prefix : string)
    (force : option bool) : t :=
  let force := match force with None => RefSpec.force self | Some b => b end in
  mk (left_prefix self) right_prefix force.

End RefSpec.

(** ** class DirSpec *)

Module DirSpec.

Record t : Type := mk {
  left_dir : string;
  right_dir : string
}.

(** The argument is a configuration value: a string, or [None] when the
    key is not set. *)
Definition parse (dirspec : option string) : result t :=
  match dirspec with
  | None =>
      Raise (AttributeError "'NoneType' object has no attribute 'split'")
  | Some dirspec =>
      match unpack2 (Str.split ":" dirspec) with
      | Raise e => Raise e
      | Ok (l, r) =>
          if Str.startswith l "/" || Str.startswith r "/"
          then Raise (ValueError ("Invalid dirspec: " ++ dirspec))
          else Ok (mk (Str.rstrip_char "/" l) (Str.rstrip_char "/" r))
      end
  end.

Definition __str__ (self : t) : string :=
  left_dir self ++ ":" ++ right_dir self.

Definition ltr (self : t) (tree_sha1 : string) : result string :=
  if Str.truthy (left_dir self)
  then Raise (NotImplementedError "Don't know how to extract left_dir")
  else if Str.truthy (right_dir self)
  then Raise (NotImplementedError "Don't know how to insert right_dir")
  else Ok tree_sha1.

End DirSpec.

(** ** The world: the output file, and the subprocesses that were run *)

(** A buffered text file opened for writing: what [write] has queued and
    what [flush] has handed over. *)
Record File : Type := mkFile {
  delivered : string;
  pending : string
}.

Definition written (f : File) : string := delivered f ++ pending f.

Section Effects.

(** The machine under the helper: [E] is the state of everything outside
    the process (local repository, configuration, the remote), and
    [exec argv e] runs the command line [argv] to completion, giving what
    it wrote to its standard output, its exit status and the new state. *)
Variable E : Type.
Variable exec : list string -> E -> string * Z * E.

Record World : Type := mkWorld {
  out_f : File;
  calls : list (list string);
  env : E
}.

Definition M (A : Type) : Type := World -> result A * World.

Definition ret {A} (a : A) : M A := fun w => (Ok a, w).

Definition raise {A} (e : exn) : M A := fun w => (Raise e, w).

Definition bind {A B} (m : M A) (k : A -> M B) : M B :=
  fun w =>
    match m w with
    | (Ok a, w') => k a w'
    | (Raise e, w') => (Raise e, w')
    end.

Definition lift {A} (r : result A) : M A := fun w => (r, w).

(** [f.write(s)] and [f.flush()] on the output file. *)
Definition write (s : string) : M unit :=
  fun w =>
    (Ok tt, mkWorld (mkFile (delivered (out_f w)) (pending (out_f w) ++ s))
                    (calls w) (env w)).

Definition flush : M unit :=
  fun w =>
    (Ok tt, mkWorld (mkFile (delivered (out_f w) ++ pending (out_f w)) "")
                    (calls w) (env w)).

(** Run a child process to its end with its standard output captured. *)
Definition Popen (args : list string) : M (string * Z) :=
  fun w =>
    let '(out, retcode, e') := exec args (env w) in
    (Ok (out, retcode), mkWorld (out_f w) (calls w ++ [args]) e').

Definition check_output (args : list string) : M string :=
  bind (Popen args) (fun '(out, retcode) =>
    if (retcode =? 0)%Z then ret out
    else raise (CalledProcessError retcode args)).

(** [check_call] does not capture the child's output. *)
Definition check_call (args : list string) : M unit :=
  bind (Popen args) (fun '(_, retcode) =>
    if (retcode =? 0)%Z then ret tt
    else raise (CalledProcessError retcode args)).

(** A generator that has run: the items it yields, in order, and the
    exception that ends it after the last item ([None]: it just ends). *)
Definition Gen (A : Type) : Type := (list A * option exn)%type.

Definition check_output_lines (args : list string) : M (Gen string) :=
  bind (Popen args) (fun '(out, retcode) =>
    ret (Str.lines out,
         if (retcode =? 0)%Z then None
         else Some (CalledProcessError retcode args))).

(** A generator whose body is [for x in xs: yield f(x)], [f] possibly
    raising: the items before the first failure. *)
Fixpoint yield_each {A B} (f : A -> result B) (xs : list A)
    (last : option exn) : Gen B :=
  match xs with
  | [] => ([], last)
  | x :: xs' =>
      match f x with
      | Ok b => let '(bs, e) := yield_each f xs' last in (b :: bs, e)
      | Raise e => ([], Some e)
      end
  end.

(** [for x in xs: body(x)] *)
Fixpoint for_each {A} (body : A -> M unit) (xs : list A) : M unit :=
  match xs with
  | [] => ret tt
  | x :: xs' => bind (body x) (fun _ => for_each body xs')
  end.

(** [for x in g: body(x)] over a generator: the exception that ends the
    generator surfaces after the body has run on every item. *)
Definition for_in {A} (g : Gen A) (body : A -> M unit) : M unit :=
  bind (for_each body (fst g)) (fun _ =>
    match snd g with
    | Some e => raise e
    | None => ret tt
    end).

(** [[f(x) for x in g]] *)
Fixpoint collect {A B} (f : A -> result B) (xs : list A)
    (last : option exn) : result (list B) :=
  match xs with
  | [] => match last with Some e => Raise e | None => Ok [] end
  | x :: xs' =>
      match f x with
      | Raise e => Raise e
      | Ok b =>
          match collect f xs' last with
          | Raise e => Raise e
          | Ok bs => Ok (b :: bs)
          end
      end
  end.

End Effects.

Arguments mkWorld {E} out_f calls env.
Arguments out_f {E} w.
Arguments calls {E} w.
Arguments env {E} w.
Arguments ret {E A} a w.
Arguments raise {E A} e w.
Arguments bind {E A B} m k w.
Arguments lift {E A} r w.
Arguments write {E} s w.
Arguments flush {E} w.
Arguments for_each {E A} body xs w.
Arguments for_in {E A} g body w.

Declare Scope helper_scope.
Delimit Scope helper_scope with helper.
Notation "x <- m ;; k" := (bind m (fun x => k))
  (at level 61, m at next level, right associativity) : helper_scope.
Notation "' p <- m ;; k" := (bind m (fun p => k))
  (at level 61, p pattern, m at next level, right associativity)
  : helper_scope.
Notation "m ;; k" := (bind m (fun _ => k))
  (at level 61, right associativity) : helper_scope.
Open Scope helper_scope.

(** [try: m  except CalledProcessError: h] *)
Definition except_CalledProcessError {E A} (m : M E A) (h : M E A) : M E A :=
  fun w =>
    match m w with
    | (Raise (CalledProcessError _ _), w') => h w'
    | other => other
    end.

(** ** class Git *)

Module Git.

Record t : Type := mk { git_dir : string }.

Section Methods.

Variable E : Type.
Variable exec : list string -> E -> string * Z * E.

Definition args (self : t) (args : list string) : list string :=
  ["git"; "--git-dir=" ++ git_dir self] ++ args.

Definition config_get_one (self : t) (key : string) : M E (option string) :=
  except_CalledProcessError
    (out <- check_output E exec (args self ["config"; "--get"; key]) ;;
     ret (Some (Str.rstrip out)))
    (ret None).

Definition config_get_all (self : t) (key : string) : M E (Gen string) :=
  ' (lines, last) <-
      check_output_lines E exec (args self ["config"; "--get"; key]) ;;
  ret (map Str.rstrip lines,
       match last with
       | Some (CalledProcessError _ _) => None
       | other => other
       end).

Definition ls_remote (self : t) (remote_or_url : string)
    : M E (Gen (string * string)) :=
  ' (lines, last) <-
      check_output_lines E exec (args self ["ls-remote"; remote_or_url]) ;;
  ret (yield_each
         (fun line => unpack2 (Str.split1 Str.TAB (Str.rstrip line)))
         lines last).

Definition fetch (self : t) (remote_or_url : string)
    (refspecs : list string) : M E unit :=
  check_call E exec (args self ("fetch" :: remote_or_url :: refspecs)).

Definition refs (self : t) (pattern : string)
    : M E (Gen (string * string)) :=
  ' (lines, last) <-
      check_output_lines E exec
        (args self ["for-each-ref";
                    "--format=%(objectname)%00%(refname)"; pattern]) ;;
  ret (yield_each
         (fun line => unpack2 (Str.split Str.NUL (Str.rstrip line)))
         lines last).

End Methods.

End Git.

(** ** class RemoteSubdirHelper *)

Module RemoteSubdirHelper.

(** Where to store remote-tracking refs before mapping through dirspec:
    ['refs/remote-subdir/{0}/'.format(remote)]. *)
Definition UnmappedRefPrefix (remote : string) : string :=
  "refs/remote-subdir/" ++ remote ++ "/".

(** Where to store remote-tracking refs after mapping through dirspec:
    ['refs/remotes/{0}/'.format(remote)]. *)
Definition MappedRefPrefix (remote : string) : string :=
  "refs/remotes/" ++ remote ++ "/".

Record t : Type := mk {
  git : Git.t;
  remote : string;
  url : string;
  dirspec : DirSpec.t;
  refspecs : list RefSpec.t;
  unmapped_ref_prefix : string;
  mapped_ref_prefix : string;
  fetchspecs : list RefSpec.t;
  mapspecs : list RefSpec.t
}.

(** [self] contributes its two prefixes, which is all that exists of it
    when the constructor calls this. *)
Definition split_refspec (mapped_ref_prefix unmapped_ref_prefix : string)
    (refspec : RefSpec.t) : result (RefSpec.t * RefSpec.t) :=
  let remove := mapped_ref_prefix in
  let insert := unmapped_ref_prefix in
  if negb (Str.startswith (RefSpec.right_prefix refspec) remove)
  then Raise (ValueError ("Cannot work with refspec "
                          ++ RefSpec.__str__ refspec
                          ++ ". The right side does not start with "
                          ++ remove ++ "!"))
  else
    let updated :=
      insert ++ Str.drop (String.length remove)
                         (RefSpec.right_prefix refspec) in
    Ok (RefSpec.with_right refspec updated (Some true),
        RefSpec.with_left refspec updated None).

Definition MissingConfiguration (remote : string) : exn :=
  ValueError ("Missing one or more of remote." ++ remote
              ++ ".url/dirspec/fetch").

Definition NestedSubdirRemote (remote : string) : exn :=
  ValueError ("remote." ++ remote ++ ".url cannot start with " ++ dquote
              ++ "subdir:" ++ dquote ++ ". Instead configure remote."
              ++ remote ++ ".vcs = subdir").

Definition UnexpectedFetchCall : exn :=
  RuntimeError
    "Should not get here, as fetch was already done in do_list()...".

Section Methods.

Variable E : Type.
Variable exec : list string -> E -> string * Z * E.

Definition __init__ (git_dir remote_name : string) : M E t :=
  let git := Git.mk git_dir in
  let remote := remote_name in
  url <- Git.config_get_one E exec git ("remote." ++ remote ++ ".url") ;;
  ds <- Git.config_get_one E exec git ("remote." ++ remote ++ ".dirspec") ;;
  dirspec <- lift (DirSpec.parse ds) ;;
  ' (lines, last) <-
      Git.config_get_all E exec git ("remote." ++ remote ++ ".fetch") ;;
  refspecs <- lift (collect RefSpec.parse lines last) ;;
  match url with
  | None => raise (MissingConfiguration remote)
  | Some url =>
      if negb (Str.truthy url && true
               && match refspecs with [] => false | _ => true end)
      then raise (MissingConfiguration remote)
      else if Str.startswith url "subdir:"
      then raise (NestedSubdirRemote remote)
      else
        let unmapped_ref_prefix := UnmappedRefPrefix remote in
        let mapped_ref_prefix := MappedRefPrefix remote in
        pairs <- lift (collect
                         (split_refspec mapped_ref_prefix unmapped_ref_prefix)
                         refspecs None) ;;
        ret (mk git remote url dirspec refspecs unmapped_ref_prefix
                mapped_ref_prefix (map fst pairs) (map snd pairs))
  end.

Definition do_capabilities (self : t) : M E unit :=
  write ("*fetch" ++ Str.nl) ;;
  write Str.nl.

Definition do_list (self : t) : M E unit :=
  Git.fetch E exec (git self) (url self)
            (map RefSpec.__str__ (fetchspecs self)) ;;
  g <- Git.refs E exec (git self) (unmapped_ref_prefix self) ;;
  for_in g (fun '(value, ref) =>
    fetchspec0 <- lift (match fetchspecs self with
                        | r :: _ => Ok r
                        | [] => Raise (IndexError "tuple index out of range")
                        end) ;;
    write (value ++ " " ++ format_opt (RefSpec.rtl fetchspec0 ref)
           ++ Str.nl)) ;;
  write Str.nl.

Definition do_fetch (self : t) (sha1 name : string) : M E unit :=
  raise UnexpectedFetchCall.

(** [getattr(self, name)(out_f, *args)] for a [name] that starts with
    [do_]: the three handlers are the only such attributes.  The wording
    of the arity error differs between Python versions. *)
Definition call_method (self : t) (name : string) (args : list string)
    : M E unit :=
  let arity := TypeError (name ++ "() got a wrong number of arguments") in
  if String.eqb name "do_capabilities" then
    match args with
    | [] => do_capabilities self
    | _ => raise arity
    end
  else if String.eqb name "do_list" then
    match args with
    | [] => do_list self
    | _ => raise arity
    end
  else if String.eqb name "do_fetch" then
    match args with
    | [sha1; name] => do_fetch self sha1 name
    | _ => raise arity
    end
  else
    raise (AttributeError ("'RemoteSubdirHelper' object has no attribute '"
                           ++ name ++ "'")).

(** The body of the [while True] loop, run on the lines that successive
    [readline] calls return; running out of lines is [readline]
    returning the empty string.  [in_f] is the text as [readline] serves
    it, newlines already translated. *)
Fixpoint process_lines (self : t) (lines : list string) : M E unit :=
  match lines with
  | [] => ret tt
  | cmdline :: rest =>
      if String.eqb cmdline "" || String.eqb cmdline Str.nl then ret tt
      else
        let args := Str.split_ws (Str.rstrip cmdline) in
        match args with
        | [] => raise (IndexError "list index out of range")
        | cmd :: args' =>
            call_method self ("do_" ++ cmd) args' ;;
            flush ;;
            process_lines self rest
        end
  end.

Definition process_commands (self : t) (in_f : string) : M E unit :=
  process_lines self (Str.lines in_f).

(** [main], with the value of [GIT_DIR] and the text on standard input
    as arguments. *)
Definition main (GIT_DIR remote_or_url in_f : string) : M E unit :=
  helper <- __init__ GIT_DIR remote_or_url ;;
  process_commands helper in_f.

End Methods.

End RemoteSubdirHelper.

(** ** A stand-in for the git binary

    The helper only ever sees git through [exec].  This small repository
    model answers the three command lines the helper issues, so that the
    statements below can be run on a concrete machine: [config --get]
    prints the last value of a key, [fetch] copies every advertised ref
    that a refspec matches to its right-hand name, and [for-each-ref]
    prints the local refs under a prefix. *)

Module FakeGit.

Record Repo : Type := mk {
  config : list (string * string);
  advertised : list (string * string);
  local_refs : list (string * string)
}.

Fixpoint lookup_last (key : string) (kvs : list (string * string))
    : option string :=
  match kvs with
  | [] => None
  | (k, v) :: kvs' =>
      match lookup_last key kvs' with
      | Some v' => Some v'
      | None => if String.eqb k key then Some v else None
      end
  end.

Definition set_ref (name value : string) (refs : list (string * string))
    : list (string * string) :=
  filter (fun '(_, n) => negb (String.eqb n name)) refs ++ [(value, name)].

Definition fetch_ref (specs : list RefSpec.t) (refs : list (string * string))
    (adv : string * string) : list (string * string) :=
  fold_left
    (fun acc spec =>
       match RefSpec.ltr spec (snd adv) with
       | Some dst => set_ref dst (fst adv) acc
       | None => acc
       end)
    specs refs.

Definition for_each_ref (pattern : string) (refs : list (string * string))
    : string :=
  String.concat ""
    (map (fun '(value, name) =>
            (value ++ String Str.NUL name ++ Str.nl)%string)
         (filter (fun '(_, name) => Str.startswith name pattern) refs)).

Definition exec (argv : list string) (r : Repo) : string * Z * Repo :=
  match argv with
  | ["git"; _; "config"; "--get"; key] =>
      match lookup_last key (config r) with
      | Some v => ((v ++ Str.nl)%string, 0%Z, r)
      | None => ("", 1%Z, r)
      end
  | "git" :: _ :: "fetch" :: _ :: refspecs =>
      match collect RefSpec.parse refspecs None with
      | Ok specs =>
          ("", 0%Z,
           mk (config r) (advertised r)
              (fold_left (fetch_ref specs) (advertised r) (local_refs r)))
      | Raise _ => ("", 128%Z, r)
      end
  | ["git"; _; "for-each-ref"; _; pattern] =>
      (for_each_ref pattern (local_refs r), 0%Z, r)
  | _ => ("", 129%Z, r)
  end.

(** The remote [origin] of the protocol scenario, before anything was
    fetched. *)
Definition origin_repo : Repo :=
  mk [("remote.origin.url", "https://example/repo.git");
      ("remote.origin.dirspec", ":");
      ("remote.origin.fetch", "+refs/heads/*:refs/remotes/origin/*")]
     [("abc123", "refs/heads/main")]
     [].

(** The same remote with no [dirspec] configured. *)
Definition no_dirspec_repo : Repo :=
  mk [("remote.origin.url", "https://example/repo.git");
      ("remote.origin.fetch", "+refs/heads/*:refs/remotes/origin/*")]
     [("abc123", "refs/heads/main")]
     [].

Definition start (r : Repo) : World Repo :=
  mkWorld (mkFile "" "") [] r.

End FakeGit.


(** ** The protocol scenario, and the shape of a [list] response *)

Module Scenario.

(** The configured refspec [+refs/heads/*:refs/remotes/origin/*] and the
    pair it is split into for the remote [origin]. *)
Definition refspec : RefSpec.t :=
  RefSpec.mk "refs/heads/" "refs/remotes/origin/" true.

Definition fetchspec : RefSpec.t :=
  RefSpec.mk "refs/heads/" "refs/remote-subdir/origin/" true.

Definition mapspec : RefSpec.t :=
  RefSpec.mk "refs/remote-subdir/origin/" "refs/remotes/origin/" true.

(** The helper that the constructor builds for [origin]. *)
Definition helper_at (git_dir : string) : RemoteSubdirHelper.t :=
  RemoteSubdirHelper.mk (Git.mk git_dir) "origin" "https://example/repo.git"
    (DirSpec.mk "" "") [refspec]
    "refs/remote-subdir/origin/" "refs/remotes/origin/"
    [fetchspec] [mapspec].

Definition helper : RemoteSubdirHelper.t := helper_at ".git".

(** The helper's repository once the fetch has been done. *)
Definition fetched_repo : FakeGit.Repo :=
  FakeGit.mk (FakeGit.config FakeGit.origin_repo)
             (FakeGit.advertised FakeGit.origin_repo)
             [("abc123", "refs/remote-subdir/origin/main")].

End Scenario.

(** The lines of a [list] response for the enumerated (object id, ref)
    pairs, when [name_of] turns a stored ref name into the name that is
    reported. *)
Definition response_lines (name_of : string -> option string)
    (items : list (string * string)) : string :=
  String.concat ""
    (map (fun '(value, ref) =>
            (value ++ " " ++ format_opt (name_of ref) ++ Str.nl)%string)
         items).

(** [git --git-dir=<dir> <args>] *)
Definition git_argv (git_dir : string) (args : list string) : list string :=
  Git.args (Git.mk git_dir) args.

(** A helper with two refspecs that store their refs under different
    suffixes of the unmapped prefix, and a repository whose remote
    advertises one tag. *)
Module TwoSpecs.

Definition heads : RefSpec.t :=
  RefSpec.mk "refs/heads/" "refs/remotes/origin/heads/" true.

Definition tags : RefSpec.t :=
  RefSpec.mk "refs/tags/" "refs/remotes/origin/tags/" true.

Definition fetch_heads : RefSpec.t :=
  RefSpec.mk "refs/heads/" "refs/remote-subdir/origin/heads/" true.

Definition fetch_tags : RefSpec.t :=
  RefSpec.mk "refs/tags/" "refs/remote-subdir/origin/tags/" true.

Definition helper : RemoteSubdirHelper.t :=
  RemoteSubdirHelper.mk (Git.mk ".git") "origin" "https://example/repo.git"
    (DirSpec.mk "" "") [heads; tags]
    "refs/remote-subdir/origin/" "refs/remotes/origin/"
    [fetch_heads; fetch_tags]
    [RefSpec.mk "refs/remote-subdir/origin/heads/"
                "refs/remotes/origin/heads/" true;
     RefSpec.mk "refs/remote-subdir/origin/tags/"
                "refs/remotes/origin/tags/" true].


Definition fetched_repo : FakeGit.Repo :=
  FakeGit.mk [] [("abc123", "refs/tags/v1")]
             [("abc123", "refs/remote-subdir/origin/tags/v1")].


End TwoSpecs.

(** The world after [s] was written to the output file of [w]. *)
Definition after_write {E} (w : World E) (s : string) : World E :=
  mkWorld (mkFile (delivered (out_f w)) (pending (out_f w) ++ s))
          (calls w) (env w).

(** The world after one more subprocess was run. *)
Definition after_call {E} (w : World E) (argv : list string) (e' : E)
    : World E :=
  mkWorld (out_f w) (calls w ++ [argv]) e'.

(** The command line of [Git.refs]. *)
Definition for_each_ref_argv (d pattern : string) : list string :=
  git_argv d ["for-each-ref"; "--format=%(objectname)%00%(refname)"; pattern].

(** The command line of [Git.ls_remote]. *)
Definition ls_remote_argv (d remote_or_url : string) : list string :=
  git_argv d ["ls-remote"; remote_or_url].

(** The command line of [Git.config_get_one] and [Git.config_get_all]. *)
Definition config_argv (d key : string) : list string :=
  git_argv d ["config"; "--get"; key].

(** The world after [flush]. *)
Definition flushed {E} (w : World E) : World E :=
  mkWorld (mkFile (delivered (out_f w) ++ pending (out_f w)) "")
          (calls w) (env w).

(** [w'] is [w] some steps later: text was only added to what was
    written and to what was handed over, and subprocess calls were only
    added to the log. *)
Definition extends {E} (w w' : World E) : Prop :=
  (exists s, written (out_f w') = (written (out_f w) ++ s)%string)
  /\ (exists s, delivered (out_f w') = (delivered (out_f w) ++ s)%string)
  /\ (exists cs, calls w' = (calls w ++ cs)%list).

(** An action whose final world is always related to its initial world
    by [R]. *)
Definition preserves {E A} (R : World E -> World E -> Prop) (m : M E A)
    : Prop :=
  forall w, R w (snd (m w)).

(** An action that only ever adds to the output and to the log. *)
Definition grows {E A} (m : M E A) : Prop :=
  preserves extends m.

(** An action that leaves the output file alone. *)
Definition same_output {E} (w w' : World E) : Prop := out_f w' = out_f w.

Definition silent {E A} (m : M E A) : Prop :=
  preserves same_output m.

(** One line of [git ls-remote] and of [git for-each-ref] in the format
    that [Git.refs] asks for. *)
Definition ls_remote_line (entry : string * string) : string :=
  (fst entry ++ String Str.TAB (snd entry) ++ Str.nl)%string.

Definition for_each_ref_line (entry : string * string) : string :=
  (fst entry ++ String Str.NUL (snd entry) ++ Str.nl)%string.

(** The names of the three handlers. *)
Definition is_command (cmd : string) : bool :=
  String.eqb cmd "capabilities" || String.eqb cmd "list"
  || String.eqb cmd "fetch".

(** * Properties *)

(** ** Strings *)

Section StrFacts.

Local Open Scope string_scope.

Lemma append_assoc (a b c : string) : (a ++ b) ++ c = a ++ (b ++ c).
Proof. induction a as [|x a IH]; simpl; [reflexivity | now rewrite IH]. Qed.

Lemma append_nil_r (a : string) : a ++ "" = a.
Proof. induction a as [|x a IH]; simpl; [reflexivity | now rewrite IH]. Qed.

Lemma startswith_app (p s : string) : Str.startswith (p ++ s) p = true.
Proof.
  induction p as [|c p IH]; simpl; [reflexivity|].
  now rewrite Ascii.eqb_refl, IH.
Qed.

Lemma drop_app (p s : string) : Str.drop (String.length p) (p ++ s) = s.
Proof. induction p as [|c p IH]; simpl; auto. Qed.

Lemma startswith_inv (s p : string) :
  Str.startswith s p = true -> s = p ++ Str.drop (String.length p) s.
Proof.
  revert s; induction p as [|c p IH]; intros s H; simpl in *; [reflexivity|].
  destruct s as [|d s]; [discriminate|].
  apply andb_prop in H as [Hc Hs].
  apply Ascii.eqb_eq in Hc; subst d.
  now rewrite <- (IH _ Hs).
Qed.

Lemma split_nonempty (sep : ascii) (s : string) : Str.split sep s <> [].
Proof.
  destruct s as [|c s]; simpl; [discriminate|].
  destruct (Ascii.eqb c sep); [discriminate|].
  destruct (Str.split sep s); discriminate.
Qed.

Lemma split_one (sep : ascii) (s r : string) :
  Str.split sep s = [r] -> s = r.
Proof.
  revert r; induction s as [|c s IH]; intros r H; simpl in H.
  - now injection H.
  - destruct (Ascii.eqb c sep).
    + injection H as _ H; now destruct (split_nonempty sep s).
    + destruct (Str.split sep s) as [|p ps] eqn:Hs.
      * now destruct (split_nonempty sep s).
      * injection H as Hr Hps; subst r ps.
        f_equal; now apply IH.
Qed.

(** A split into exactly two pieces cuts the text at its only separator. *)
Lemma split_two (sep : ascii) (s l r : string) :
  Str.split sep s = [l; r] -> s = l ++ String sep r.
Proof.
  revert l; induction s as [|c s IH]; intros l H; simpl in H; [discriminate|].
  destruct (Ascii.eqb c sep) eqn:Hc.
  - apply Ascii.eqb_eq in Hc; subst c.
    injection H as Hl Hr; subst l.
    simpl; f_equal; now apply split_one with (sep := sep).
  - destruct (Str.split sep s) as [|p ps] eqn:Hs.
    + now destruct (split_nonempty sep s).
    + injection H as Hl Hps; subst l ps.
      simpl; f_equal; now apply IH.
Qed.

Lemma endswith_inv (s : string) (c : ascii) :
  Str.endswith s c = true -> s = Str.drop_last s ++ String c "".
Proof.
  induction s as [|d s IH]; intros H; [discriminate|].
  destruct s as [|e s].
  - simpl in H; apply Ascii.eqb_eq in H; now subst d.
  - change (Str.endswith (String e s) c = true) in H.
    change (String d (String e s)
            = String d (Str.drop_last (String e s) ++ String c "")).
    f_equal; now apply IH.
Qed.

Lemma rstrip_by_all (p : ascii -> bool) (s : string) :
  Str.all p s = true -> Str.rstrip_by p s = "".
Proof.
  unfold Str.all.
  induction s as [|c s IH]; simpl; intros H; [reflexivity|].
  apply andb_prop in H as [Hc Hs].
  now rewrite (IH Hs), Hc.
Qed.

(** [Str.lines] is what repeated [readline] returns. *)
Lemma lines_readline (s : string) :
  Str.lines s =
  match Str.readline s with
  | ("", _) => []
  | (l, rest) => l :: Str.lines rest
  end.
Proof.
  induction s as [|c s IH]; simpl; [reflexivity|].
  destruct (Ascii.eqb c Str.LF); [reflexivity|].
  rewrite IH.
  destruct (Str.readline s) as [l rest] eqn:Hr.
  destruct l; [|reflexivity].
  destruct s as [|d s]; simpl in Hr.
  - injection Hr as <-; reflexivity.
  - destruct (Ascii.eqb d Str.LF); [discriminate|].
    destruct (Str.readline s); discriminate.
Qed.

End StrFacts.

(** ** The string operations on the texts of the protocol *)

Example split_colon :
  Str.split ":" "+refs/heads/*:refs/remotes/origin/*"
  = ["+refs/heads/*"; "refs/remotes/origin/*"].
Proof. reflexivity. Qed.

Example split_no_separator : Str.split ":" "" = [""].
Proof. reflexivity. Qed.

Example split_ws_command :
  Str.split_ws (Str.rstrip ("fetch abc123  refs/heads/main" ++ Str.nl))
  = ["fetch"; "abc123"; "refs/heads/main"].
Proof. reflexivity. Qed.

Example rstrip_slashes : Str.rstrip_char "/" "foo/bar//" = "foo/bar".
Proof. reflexivity. Qed.

Example lines_of_stream :
  Str.lines ("list" ++ Str.nl ++ Str.nl ++ "x")
  = [("list" ++ Str.nl)%string; Str.nl; "x"].
Proof. reflexivity. Qed.

Example parse_scenario_refspec :
  RefSpec.parse "+refs/heads/*:refs/remotes/origin/*" = Ok Scenario.refspec.
Proof. reflexivity. Qed.

Example parse_rejects_plain_ref :
  RefSpec.parse "refs/heads/main:refs/remotes/origin/main"
  = Raise (ValueError
             "Invalid refspec: refs/heads/main:refs/remotes/origin/main").
Proof. reflexivity. Qed.

Example dirspec_rejects_absolute :
  DirSpec.parse (Some "/app:lib")
  = Raise (ValueError "Invalid dirspec: /app:lib").
Proof. reflexivity. Qed.

Example init_scenario :
  fst (RemoteSubdirHelper.__init__ FakeGit.Repo FakeGit.exec ".git" "origin"
         (FakeGit.start FakeGit.origin_repo))
  = Ok Scenario.helper.
Proof. reflexivity. Qed.

Example unknown_command :
  fst (RemoteSubdirHelper.process_commands FakeGit.Repo FakeGit.exec
         Scenario.helper ("bogus" ++ Str.nl ++ Str.nl)
         (FakeGit.start FakeGit.origin_repo))
  = Raise (AttributeError
             "'RemoteSubdirHelper' object has no attribute 'do_bogus'").
Proof. reflexivity. Qed.

Example empty_input :
  RemoteSubdirHelper.process_commands FakeGit.Repo FakeGit.exec
    Scenario.helper "" (FakeGit.start FakeGit.origin_repo)
  = (Ok tt, FakeGit.start FakeGit.origin_repo).
Proof. reflexivity. Qed.

(** ** The refspec algebra *)

(** C5 (mapping inverse): whenever [ltr] maps a ref [x] to a name [y]
    (it did not answer [None]), [rtl] maps [y] back to exactly [x]. *)
Theorem C5_ltr_then_rtl (R : RefSpec.t) (x y : string) :
  RefSpec.ltr R x = Some y -> RefSpec.rtl R y = Some x.
Proof.
  unfold RefSpec.ltr, RefSpec.rtl.
  destruct (Str.startswith x (RefSpec.left_prefix R)) eqn:Hx;
    [|discriminate].
  intros Hy; injection Hy as <-.
  rewrite startswith_app, drop_app.
  now rewrite <- (startswith_inv _ _ Hx).
Qed.

Lemma C5_ltr_then_rtl_witness :
  RefSpec.ltr Scenario.refspec "refs/heads/main"
    = Some "refs/remotes/origin/main"
  /\ RefSpec.rtl Scenario.refspec "refs/remotes/origin/main"
    = Some "refs/heads/main".
Proof.
  split; [reflexivity|].
  apply (C5_ltr_then_rtl Scenario.refspec "refs/heads/main"); reflexivity.
Defined.

Lemma unpack2_inv (pieces : list string) (l r : string) :
  unpack2 pieces = Ok (l, r) -> pieces = [l; r].
Proof.
  destruct pieces as [|a [|b [|c ps]]]; simpl; try discriminate.
  intros H; now injection H as -> ->.
Qed.

(** What [parse] accepts, after the optional [+] is taken off: two
    pieces around one colon, each ending in a star. *)
Lemma parse_body (force : bool) (body : string) (r : RefSpec.t) :
  match unpack2 (Str.split ":" body) with
  | Raise e => Raise e
  | Ok (l, r) =>
      if negb (Str.endswith l "*" && Str.endswith r "*")
      then Raise (ValueError ("Invalid refspec: " ++ body))
      else Ok (RefSpec.mk (Str.drop_last l) (Str.drop_last r) force)
  end = Ok r ->
  RefSpec.force r = force
  /\ (RefSpec.left_prefix r ++ "*:" ++ RefSpec.right_prefix r ++ "*")%string
     = body.
Proof.
  destruct (unpack2 (Str.split ":" body)) as [[l r']|e] eqn:Hu;
    [|discriminate].
  apply unpack2_inv, split_two in Hu.
  destruct (Str.endswith l "*") eqn:Hl; [|discriminate].
  destruct (Str.endswith r' "*") eqn:Hr; [|discriminate].
  simpl; intros H; injection H as <-; simpl.
  split; [reflexivity|].
  apply endswith_inv in Hl, Hr.
  set (l0 := Str.drop_last l) in *; set (r0 := Str.drop_last r') in *.
  rewrite Hu, Hl, Hr.
  now rewrite !append_assoc.
Qed.

(** C6 (round trip): every text that [RefSpec.parse] accepts is what
    [__str__] prints for the parsed value. *)
Theorem C6_parse_then_str (s : string) (r : RefSpec.t) :
  RefSpec.parse s = Ok r -> RefSpec.__str__ r = s.
Proof.
  unfold RefSpec.parse, RefSpec.__str__.
  destruct (Str.startswith s "+") eqn:Hplus; intros H;
    apply parse_body in H as [-> Hbody]; rewrite Hbody.
  - now rewrite (startswith_inv _ _ Hplus) at 2.
  - reflexivity.
Qed.

Lemma C6_parse_then_str_witness :
  RefSpec.parse "+refs/heads/*:refs/remotes/origin/*" = Ok Scenario.refspec
  /\ RefSpec.__str__ Scenario.refspec = "+refs/heads/*:refs/remotes/origin/*".
Proof.
  split; [reflexivity|].
  apply (C6_parse_then_str "+refs/heads/*:refs/remotes/origin/*");
    reflexivity.
Defined.

(** ** Splitting a refspec *)

Lemma split_refspec_inv (remote : string) (R fetchspec mapspec : RefSpec.t) :
  RemoteSubdirHelper.split_refspec
    (RemoteSubdirHelper.MappedRefPrefix remote)
    (RemoteSubdirHelper.UnmappedRefPrefix remote) R
  = Ok (fetchspec, mapspec) ->
  exists updated,
    fetchspec = RefSpec.mk (RefSpec.left_prefix R) updated true
    /\ mapspec = RefSpec.mk updated (RefSpec.right_prefix R) (RefSpec.force R).
Proof.
  unfold RemoteSubdirHelper.split_refspec.
  destruct (Str.startswith _ _); simpl; [|discriminate].
  intros H; injection H as <- <-.
  eexists; split; reflexivity.
Qed.

(** C4, as the code has it (split composition): for a refspec [R] whose
    right prefix starts with the mapped prefix, split into
    [(fetchspec, mapspec)], and a ref [x] that starts with [R]'s left
    prefix, mapping [x] left to right through [fetchspec] and the result
    left to right through [mapspec] gives what [R] maps [x] to. *)
Theorem C4_split_composes_ltr (remote : string)
    (R fetchspec mapspec : RefSpec.t) (x : string) :
  RemoteSubdirHelper.split_refspec
    (RemoteSubdirHelper.MappedRefPrefix remote)
    (RemoteSubdirHelper.UnmappedRefPrefix remote) R
  = Ok (fetchspec, mapspec) ->
  Str.startswith x (RefSpec.left_prefix R) = true ->
  exists u,
    RefSpec.ltr fetchspec x = Some u
    /\ RefSpec.ltr mapspec u = RefSpec.ltr R x.
Proof.
  intros Hsplit Hx.
  apply split_refspec_inv in Hsplit as (updated & -> & ->).
  unfold RefSpec.ltr; simpl; rewrite Hx.
  eexists; split; [reflexivity|].
  now rewrite startswith_app, drop_app.
Qed.

Lemma C4_split_composes_ltr_witness :
  exists u,
    RefSpec.ltr Scenario.fetchspec "refs/heads/main" = Some u
    /\ RefSpec.ltr Scenario.mapspec u
       = RefSpec.ltr Scenario.refspec "refs/heads/main".
Proof.
  apply (C4_split_composes_ltr "origin" Scenario.refspec); reflexivity.
Defined.

(** C4 as the specification states it, with [mapspec] applied right to
    left, fails on the scenario's refspec: the ref
    that [fetchspec] produces lies under the unmapped prefix, [mapspec]
    mapped right to left tests it against the mapped prefix and answers
    [None], while [R] maps [refs/heads/main] to a name. *)
Lemma C4_rtl_counterexample :
  RemoteSubdirHelper.split_refspec
    (RemoteSubdirHelper.MappedRefPrefix "origin")
    (RemoteSubdirHelper.UnmappedRefPrefix "origin") Scenario.refspec
  = Ok (Scenario.fetchspec, Scenario.mapspec)
  /\ Str.startswith "refs/heads/main"
       (RefSpec.left_prefix Scenario.refspec) = true
  /\ RefSpec.ltr Scenario.fetchspec "refs/heads/main"
     = Some "refs/remote-subdir/origin/main"
  /\ RefSpec.rtl Scenario.mapspec "refs/remote-subdir/origin/main" = None
  /\ RefSpec.ltr Scenario.refspec "refs/heads/main"
     = Some "refs/remotes/origin/main"
  /\ RefSpec.rtl Scenario.mapspec "refs/remote-subdir/origin/main"
     <> RefSpec.ltr Scenario.refspec "refs/heads/main".
Proof. repeat split; discriminate. Qed.

(** Right to left, [mapspec] never accepts a ref that [fetchspec]
    produced, whatever the remote and the refspec: the two namespaces
    part ways at their twelfth character. *)
Lemma mapspec_rtl_of_fetched (remote : string)
    (R fetchspec mapspec : RefSpec.t) (x u : string) :
  RemoteSubdirHelper.split_refspec
    (RemoteSubdirHelper.MappedRefPrefix remote)
    (RemoteSubdirHelper.UnmappedRefPrefix remote) R
  = Ok (fetchspec, mapspec) ->
  RefSpec.ltr fetchspec x = Some u ->
  RefSpec.rtl mapspec u = None.
Proof.
  unfold RemoteSubdirHelper.split_refspec.
  destruct (Str.startswith _ _) eqn:Hr; simpl; [|discriminate].
  intros H; injection H as <- <-.
  unfold RefSpec.ltr, RefSpec.rtl; simpl.
  destruct (Str.startswith x _); [|discriminate].
  intros H; injection H as <-.
  apply startswith_inv in Hr; rewrite Hr.
  reflexivity.
Qed.

(** ** The stub of the directory mapping *)

(** C9: a dirspec with a non-empty directory on either side refuses to
    map any tree (NotImplementedError, the UnsupportedDirSpec signal);
    [":"] parses to the empty:empty dirspec, which maps every tree to
    itself. *)
Theorem C9_dirspec_ltr :
  (forall (d : DirSpec.t) (tree_sha1 : string),
      DirSpec.left_dir d <> "" \/ DirSpec.right_dir d <> "" ->
      exists msg, DirSpec.ltr d tree_sha1 = Raise (NotImplementedError msg))
  /\ DirSpec.parse (Some ":") = Ok (DirSpec.mk "" "")
  /\ (forall tree_sha1 : string,
        DirSpec.ltr (DirSpec.mk "" "") tree_sha1 = Ok tree_sha1).
Proof.
  split; [|split; reflexivity].
  intros [l r] t H; unfold DirSpec.ltr; simpl in *.
  destruct l as [|c l]; simpl.
  - destruct r as [|c r]; simpl; [|eexists; reflexivity].
    destruct H as [H|H]; now destruct H.
  - eexists; reflexivity.
Qed.

Lemma C9_dirspec_ltr_witness :
  DirSpec.parse (Some "app:lib") = Ok (DirSpec.mk "app" "lib")
  /\ DirSpec.__str__ (DirSpec.mk "app" "lib") = "app:lib"
  /\ exists msg,
       DirSpec.ltr (DirSpec.mk "app" "lib") "4b825dc642cb"
       = Raise (NotImplementedError msg).
Proof.
  split; [reflexivity|]. split; [reflexivity|].
  apply (proj1 C9_dirspec_ltr (DirSpec.mk "app" "lib") "4b825dc642cb").
  left; discriminate.
Defined.

(** ** The handlers and the dispatcher *)

Section Protocol.

Variable E : Type.
Variable exec : list string -> E -> string * Z * E.

Lemma after_write_nil (w : World E) : after_write w "" = w.
Proof.
  destruct w as [[d p] c e]; unfold after_write; simpl.
  now rewrite append_nil_r.
Qed.

Lemma after_write_twice (w : World E) (a b : string) :
  after_write (after_write w a) b = after_write w (a ++ b).
Proof. unfold after_write; simpl; now rewrite append_assoc. Qed.

Lemma write_spec (s : string) (w : World E) :
  write s w = (Ok tt, after_write w s).
Proof. reflexivity. Qed.

(** C3, as the code has it: [capabilities] answers with the one
    capability line [*fetch] and the blank terminator line, so the whole
    response is [*fetch], newline, newline; it runs no subprocess and
    leaves everything else as it was. *)
Theorem C3_capabilities_response (self : RemoteSubdirHelper.t) (w : World E) :
  RemoteSubdirHelper.do_capabilities E self w
  = (Ok tt, after_write w ("*fetch" ++ Str.nl ++ Str.nl)).
Proof.
  unfold RemoteSubdirHelper.do_capabilities, bind.
  now rewrite !write_spec, after_write_twice.
Qed.

(** C8: the fetch handler raises the RuntimeError of the
    UnexpectedFetchCall signal for every object id and ref name, and the
    world (output file included) is left as it was; so does a command
    line [fetch <sha1> <name>] that reaches the dispatcher. *)
Theorem C8_fetch_is_fatal :
  (forall (self : RemoteSubdirHelper.t) (sha1 name : string) (w : World E),
      RemoteSubdirHelper.do_fetch E self sha1 name w
      = (Raise RemoteSubdirHelper.UnexpectedFetchCall, w))
  /\ (forall (self : RemoteSubdirHelper.t) (cmdline sha1 name : string)
             (rest : list string) (w : World E),
         Str.split_ws (Str.rstrip cmdline) = ["fetch"; sha1; name] ->
         RemoteSubdirHelper.process_lines E exec self (cmdline :: rest) w
         = (Raise RemoteSubdirHelper.UnexpectedFetchCall, w)).
Proof.
  split; [reflexivity|].
  intros self cmdline sha1 name rest w Hargs.
  unfold RemoteSubdirHelper.process_lines.
  destruct (String.eqb_spec cmdline "") as [->|_]; [discriminate|].
  destruct (String.eqb_spec cmdline Str.nl) as [->|_]; [discriminate|].
  simpl orb; cbv iota.
  rewrite Hargs.
  reflexivity.
Qed.

(** C10: a command line that is neither empty nor a lone newline and
    holds nothing but whitespace splits into no arguments at all; the
    dispatcher then raises IndexError on [args[0]], whichever iteration
    of the loop reads the line: the session does not end normally, no
    handler runs, and the world is left as it was. *)
Theorem C10_blank_line_aborts (cmdline : string) :
  cmdline <> "" -> cmdline <> Str.nl ->
  Str.all Str.isspace cmdline = true ->
  Str.split_ws (Str.rstrip cmdline) = []
  /\ (forall (self : RemoteSubdirHelper.t) (rest : list string) (w : World E),
         RemoteSubdirHelper.process_lines E exec self (cmdline :: rest) w
         = (Raise (IndexError "list index out of range"), w))
  /\ (forall (self : RemoteSubdirHelper.t) (in_f : string) (w : World E),
         fst (Str.readline in_f) = cmdline ->
         RemoteSubdirHelper.process_commands E exec self in_f w
         = (Raise (IndexError "list index out of range"), w)).
Proof.
  intros Hne Hnl Hws.
  assert (Hargs : Str.split_ws (Str.rstrip cmdline) = []).
  { unfold Str.rstrip; now rewrite (rstrip_by_all _ _ Hws). }
  assert (Hloop : forall self rest (w : World E),
             RemoteSubdirHelper.process_lines E exec self (cmdline :: rest) w
             = (Raise (IndexError "list index out of range"), w)).
  { intros self rest w; unfold RemoteSubdirHelper.process_lines.
    apply String.eqb_neq in Hne, Hnl.
    now rewrite Hne, Hnl, Hargs. }
  repeat split; auto.
  intros self in_f w Hline.
  unfold RemoteSubdirHelper.process_commands.
  rewrite lines_readline.
  destruct (Str.readline in_f) as [l rest]; simpl in Hline; subst l.
  destruct cmdline; [now destruct Hne | apply Hloop].
Qed.

End Protocol.

Lemma C10_blank_line_aborts_witness :
  RemoteSubdirHelper.process_commands FakeGit.Repo FakeGit.exec
    Scenario.helper ("  " ++ Str.nl ++ "list" ++ Str.nl)
    (FakeGit.start FakeGit.origin_repo)
  = (Raise (IndexError "list index out of range"),
     FakeGit.start FakeGit.origin_repo).
Proof.
  apply (C10_blank_line_aborts FakeGit.Repo FakeGit.exec ("  " ++ Str.nl));
    try reflexivity; discriminate.
Defined.

Lemma C8_fetch_is_fatal_witness :
  RemoteSubdirHelper.process_lines FakeGit.Repo FakeGit.exec Scenario.helper
    [("fetch abc123 refs/heads/main" ++ Str.nl)%string]
    (FakeGit.start Scenario.fetched_repo)
  = (Raise RemoteSubdirHelper.UnexpectedFetchCall,
     FakeGit.start Scenario.fetched_repo).
Proof.
  apply (proj2 (C8_fetch_is_fatal FakeGit.Repo FakeGit.exec)
           Scenario.helper _ "abc123" "refs/heads/main").
  reflexivity.
Defined.

(** C3 as the specification states it fails: the response is not
    [fetch], newline, newline, because the capability line carries a
    leading star. *)
Lemma C3_capabilities_counterexample :
  written (out_f (snd (RemoteSubdirHelper.do_capabilities FakeGit.Repo
                         Scenario.helper
                         (FakeGit.start FakeGit.origin_repo))))
  = ("*fetch" ++ Str.nl ++ Str.nl)%string
  /\ written (out_f (snd (RemoteSubdirHelper.do_capabilities FakeGit.Repo
                            Scenario.helper
                            (FakeGit.start FakeGit.origin_repo))))
     <> ("fetch" ++ Str.nl ++ Str.nl)%string.
Proof. split; [reflexivity | discriminate]. Qed.

(** ** The [list] handler *)

Section Listing.

Variable E : Type.
Variable exec : list string -> E -> string * Z * E.

Lemma Popen_spec (argv : list string) (w : World E) out rc e' :
  exec argv (env w) = (out, rc, e') ->
  Popen E exec argv w = (Ok (out, rc), after_call w argv e').
Proof. intros H; unfold Popen; now rewrite H. Qed.

Lemma config_get_one_spec (d key : string) (w : World E) out rc e' :
  exec (git_argv d ["config"; "--get"; key]) (env w) = (out, rc, e') ->
  Git.config_get_one E exec (Git.mk d) key w
  = (Ok (if (rc =? 0)%Z then Some (Str.rstrip out) else None),
     after_call w (git_argv d ["config"; "--get"; key]) e').
Proof.
  intros H.
  unfold Git.config_get_one, except_CalledProcessError, check_output, bind.
  fold (git_argv d ["config"; "--get"; key]).
  rewrite (Popen_spec _ _ _ _ _ H).
  now destruct (rc =? 0)%Z.
Qed.

Lemma config_get_all_spec (d key : string) (w : World E) out rc e' :
  exec (git_argv d ["config"; "--get"; key]) (env w) = (out, rc, e') ->
  Git.config_get_all E exec (Git.mk d) key w
  = (Ok (map Str.rstrip (Str.lines out), None),
     after_call w (git_argv d ["config"; "--get"; key]) e').
Proof.
  intros H.
  unfold Git.config_get_all, check_output_lines, bind.
  fold (git_argv d ["config"; "--get"; key]).
  rewrite (Popen_spec _ _ _ _ _ H).
  now destruct (rc =? 0)%Z.
Qed.

Lemma fetch_spec (d url : string) (refspecs : list string)
    (w : World E) out rc e' :
  exec (git_argv d ("fetch" :: url :: refspecs)) (env w) = (out, rc, e') ->
  Git.fetch E exec (Git.mk d) url refspecs w
  = (if (rc =? 0)%Z then Ok tt
     else Raise (CalledProcessError rc
                   (git_argv d ("fetch" :: url :: refspecs))),
     after_call w (git_argv d ("fetch" :: url :: refspecs)) e').
Proof.
  intros H.
  unfold Git.fetch, check_call, bind.
  fold (git_argv d ("fetch" :: url :: refspecs)).
  rewrite (Popen_spec _ _ _ _ _ H).
  now destruct (rc =? 0)%Z.
Qed.

Lemma refs_spec (d pattern : string) (w : World E) out rc e' :
  exec (for_each_ref_argv d pattern) (env w) = (out, rc, e') ->
  Git.refs E exec (Git.mk d) pattern w
  = (Ok (yield_each
           (fun line => unpack2 (Str.split Str.NUL (Str.rstrip line)))
           (Str.lines out)
           (if (rc =? 0)%Z then None
            else Some (CalledProcessError rc (for_each_ref_argv d pattern)))),
     after_call w (for_each_ref_argv d pattern) e').
Proof.
  intros H.
  unfold Git.refs, check_output_lines, bind.
  fold (git_argv d ["for-each-ref"; "--format=%(objectname)%00%(refname)";
                    pattern]).
  fold (for_each_ref_argv d pattern).
  now rewrite (Popen_spec _ _ _ _ _ H).
Qed.

(** The loop of [do_list] writes one line per enumerated ref, named
    through the first fetchspec. *)
Lemma list_loop_spec (fetchspecs : list RefSpec.t) (fetchspec0 : RefSpec.t)
    (tail : list RefSpec.t) (items : list (string * string)) (w : World E) :
  fetchspecs = fetchspec0 :: tail ->
  for_each
    (fun '(value, ref) =>
       fetchspec0 <- lift (match fetchspecs with
                           | r :: _ => Ok r
                           | [] => Raise (IndexError "tuple index out of range")
                           end) ;;
       write (value ++ " " ++ format_opt (RefSpec.rtl fetchspec0 ref)
              ++ Str.nl))
    items w
  = (Ok tt, after_write w (response_lines (RefSpec.rtl fetchspec0) items)).
Proof.
  intros ->; revert w.
  induction items as [|[value ref] items IH]; intros w.
  - now rewrite after_write_nil.
  - cbn [for_each]; unfold bind at 1 2; unfold lift.
    rewrite write_spec, IH, after_write_twice.
    unfold response_lines; cbn [map String.concat].
    destruct items as [|item items]; [|reflexivity].
    cbn [map String.concat]; now rewrite append_nil_r.
Qed.

(** What [do_list] does once the fetch has succeeded. *)
Lemma do_list_spec (self : RemoteSubdirHelper.t)
    (fetchspec0 : RefSpec.t) (tail : list RefSpec.t)
    (items : list (string * string)) (last : option exn)
    (w w1 w2 : World E) :
  RemoteSubdirHelper.fetchspecs self = fetchspec0 :: tail ->
  Git.fetch E exec (RemoteSubdirHelper.git self) (RemoteSubdirHelper.url self)
    (map RefSpec.__str__ (RemoteSubdirHelper.fetchspecs self)) w
  = (Ok tt, w1) ->
  Git.refs E exec (RemoteSubdirHelper.git self)
    (RemoteSubdirHelper.unmapped_ref_prefix self) w1
  = (Ok (items, last), w2) ->
  RemoteSubdirHelper.do_list E exec self w
  = match last with
    | None =>
        (Ok tt,
         after_write w2
           (response_lines (RefSpec.rtl fetchspec0) items ++ Str.nl))
    | Some e =>
        (Raise e,
         after_write w2 (response_lines (RefSpec.rtl fetchspec0) items))
    end.
Proof.
  intros Hfs Hfetch Hrefs.
  unfold RemoteSubdirHelper.do_list.
  unfold bind at 1; rewrite Hfetch.
  unfold bind at 1; rewrite Hrefs.
  unfold bind at 1, for_in; cbn [fst snd]; unfold bind at 1.
  rewrite (list_loop_spec _ _ _ items w2 Hfs).
  destruct last as [e|]; [reflexivity|].
  unfold ret; now rewrite write_spec, after_write_twice.
Qed.

(** C2, as the code has it: when the fetch succeeds, the response of
    [list] holds, for every ref enumerated under the unmapped prefix and
    in that order, the line made of the ref's object id and of the name
    that the first derived fetchspec maps the stored ref name to, right
    to left; the blank line follows unless the enumeration itself ends
    in an error. *)
Theorem C2_list_names_by_first_fetchspec (self : RemoteSubdirHelper.t)
    (fetchspec0 : RefSpec.t) (tail : list RefSpec.t)
    (items : list (string * string)) (last : option exn)
    (w w1 w2 : World E) :
  RemoteSubdirHelper.fetchspecs self = fetchspec0 :: tail ->
  Git.fetch E exec (RemoteSubdirHelper.git self) (RemoteSubdirHelper.url self)
    (map RefSpec.__str__ (RemoteSubdirHelper.fetchspecs self)) w
  = (Ok tt, w1) ->
  Git.refs E exec (RemoteSubdirHelper.git self)
    (RemoteSubdirHelper.unmapped_ref_prefix self) w1
  = (Ok (items, last), w2) ->
  RemoteSubdirHelper.do_list E exec self w
  = match last with
    | None =>
        (Ok tt,
         after_write w2
           (response_lines (RefSpec.rtl fetchspec0) items ++ Str.nl))
    | Some e =>
        (Raise e,
         after_write w2 (response_lines (RefSpec.rtl fetchspec0) items))
    end.
Proof. apply do_list_spec. Qed.

End Listing.

Lemma C2_list_names_by_first_fetchspec_witness :
  RemoteSubdirHelper.do_list FakeGit.Repo FakeGit.exec Scenario.helper
    (FakeGit.start FakeGit.origin_repo)
  = (Ok tt,
     after_write
       (after_call
          (after_call (FakeGit.start FakeGit.origin_repo)
             (git_argv ".git"
                ["fetch"; "https://example/repo.git";
                 "+refs/heads/*:refs/remote-subdir/origin/*"])
             Scenario.fetched_repo)
          (for_each_ref_argv ".git" "refs/remote-subdir/origin/")
          Scenario.fetched_repo)
       (response_lines (RefSpec.rtl Scenario.fetchspec)
          [("abc123", "refs/remote-subdir/origin/main")] ++ Str.nl)).
Proof.
  apply (C2_list_names_by_first_fetchspec FakeGit.Repo FakeGit.exec
           Scenario.helper Scenario.fetchspec []
           [("abc123", "refs/remote-subdir/origin/main")] None
           (FakeGit.start FakeGit.origin_repo)
           (after_call (FakeGit.start FakeGit.origin_repo)
              (git_argv ".git"
                 ["fetch"; "https://example/repo.git";
                  "+refs/heads/*:refs/remote-subdir/origin/*"])
              Scenario.fetched_repo));
    reflexivity.
Defined.

(** C2 as the specification states it fails on the protocol scenario:
    the one ref enumerated is [refs/remote-subdir/origin/main] with
    object id [abc123]; the first mapspec, applied right to left, does
    not match it, so the line would read [abc123 None]; the response
    written is [abc123 refs/heads/main]. *)
Lemma C2_mapspec_counterexample :
  RemoteSubdirHelper.mapspecs Scenario.helper = [Scenario.mapspec]
  /\ fst (Git.refs FakeGit.Repo FakeGit.exec
            (RemoteSubdirHelper.git Scenario.helper)
            (RemoteSubdirHelper.unmapped_ref_prefix Scenario.helper)
            (FakeGit.start Scenario.fetched_repo))
     = Ok ([("abc123", "refs/remote-subdir/origin/main")], None)
  /\ written (out_f (snd (RemoteSubdirHelper.do_list FakeGit.Repo FakeGit.exec
                            Scenario.helper
                            (FakeGit.start FakeGit.origin_repo))))
     = ("abc123 refs/heads/main" ++ Str.nl ++ Str.nl)%string
  /\ (response_lines (RefSpec.rtl Scenario.mapspec)
        [("abc123", "refs/remote-subdir/origin/main")] ++ Str.nl)%string
     = ("abc123 None" ++ Str.nl ++ Str.nl)%string
  /\ written (out_f (snd (RemoteSubdirHelper.do_list FakeGit.Repo FakeGit.exec
                            Scenario.helper
                            (FakeGit.start FakeGit.origin_repo))))
     <> (response_lines (RefSpec.rtl Scenario.mapspec)
           [("abc123", "refs/remote-subdir/origin/main")] ++ Str.nl)%string.
Proof. repeat split; vm_compute; discriminate. Qed.

(** ** Construction and the whole session *)

Section Session.

Variable E : Type.
Variable exec : list string -> E -> string * Z * E.

(** The constructor on a machine that holds the scenario's
    configuration. *)
Lemma init_origin (GIT_DIR : string) (w : World E) (e1 e2 e3 : E) :
  exec (git_argv GIT_DIR ["config"; "--get"; "remote.origin.url"]) (env w)
  = (("https://example/repo.git" ++ Str.nl)%string, 0%Z, e1) ->
  exec (git_argv GIT_DIR ["config"; "--get"; "remote.origin.dirspec"]) e1
  = ((":" ++ Str.nl)%string, 0%Z, e2) ->
  exec (git_argv GIT_DIR ["config"; "--get"; "remote.origin.fetch"]) e2
  = (("+refs/heads/*:refs/remotes/origin/*" ++ Str.nl)%string, 0%Z, e3) ->
  RemoteSubdirHelper.__init__ E exec GIT_DIR "origin" w
  = (Ok (Scenario.helper_at GIT_DIR),
     after_call
       (after_call
          (after_call w
             (git_argv GIT_DIR ["config"; "--get"; "remote.origin.url"]) e1)
          (git_argv GIT_DIR ["config"; "--get"; "remote.origin.dirspec"]) e2)
       (git_argv GIT_DIR ["config"; "--get"; "remote.origin.fetch"]) e3).
Proof.
  intros Hurl Hdirspec Hfetchcfg.
  unfold RemoteSubdirHelper.__init__.
  cbn [append].
  unfold bind at 1.
  rewrite (config_get_one_spec E exec _ _ w _ _ _ Hurl).
  unfold bind at 1.
  rewrite (config_get_one_spec E exec _ _ (after_call _ _ e1) _ _ _ Hdirspec).
  unfold bind at 1, lift at 1.
  change (DirSpec.parse _) with (@Ok DirSpec.t (DirSpec.mk "" "")).
  cbv iota.
  unfold bind at 1.
  rewrite (config_get_all_spec E exec _ _ (after_call _ _ e2) _ _ _ Hfetchcfg).
  reflexivity.
Qed.

(** One [list] command followed by the end of the command stream. *)
Lemma list_session (self : RemoteSubdirHelper.t) (w : World E) :
  RemoteSubdirHelper.process_commands E exec self
    ("list" ++ Str.nl ++ Str.nl) w
  = (RemoteSubdirHelper.do_list E exec self ;; flush) w.
Proof.
  unfold RemoteSubdirHelper.process_commands.
  transitivity
    ((RemoteSubdirHelper.do_list E exec self ;; flush ;; ret tt) w);
    [reflexivity|].
  unfold bind, flush, ret.
  destruct (RemoteSubdirHelper.do_list E exec self w) as [[[]|e] w'];
    reflexivity.
Qed.

(** C1 (protocol scenario 2): on any machine where git answers the three
    configuration reads for [origin] with the url
    [https://example/repo.git], the dirspec [:] and the one refspec
    [+refs/heads/*:refs/remotes/origin/*], where the fetch of the derived
    refspec [+refs/heads/*:refs/remote-subdir/origin/*] succeeds and the
    refs under [refs/remote-subdir/origin/] are then the fetched
    [abc123 refs/remote-subdir/origin/main], the input [list], newline,
    newline makes the helper run exactly that fetch before the
    enumeration and deliver [abc123 refs/heads/main], newline, newline,
    and nothing else. *)
Theorem C1_list_scenario (GIT_DIR out : string) (e0 e1 e2 e3 e4 e5 : E) :
  exec (git_argv GIT_DIR ["config"; "--get"; "remote.origin.url"]) e0
  = (("https://example/repo.git" ++ Str.nl)%string, 0%Z, e1) ->
  exec (git_argv GIT_DIR ["config"; "--get"; "remote.origin.dirspec"]) e1
  = ((":" ++ Str.nl)%string, 0%Z, e2) ->
  exec (git_argv GIT_DIR ["config"; "--get"; "remote.origin.fetch"]) e2
  = (("+refs/heads/*:refs/remotes/origin/*" ++ Str.nl)%string, 0%Z, e3) ->
  exec (git_argv GIT_DIR
          ["fetch"; "https://example/repo.git";
           "+refs/heads/*:refs/remote-subdir/origin/*"]) e3
  = (out, 0%Z, e4) ->
  exec (for_each_ref_argv GIT_DIR "refs/remote-subdir/origin/") e4
  = (("abc123" ++ String Str.NUL "refs/remote-subdir/origin/main"
      ++ Str.nl)%string, 0%Z, e5) ->
  RemoteSubdirHelper.main E exec GIT_DIR "origin"
    ("list" ++ Str.nl ++ Str.nl) (mkWorld (mkFile "" "") [] e0)
  = (Ok tt,
     mkWorld (mkFile ("abc123 refs/heads/main" ++ Str.nl ++ Str.nl) "")
       [git_argv GIT_DIR ["config"; "--get"; "remote.origin.url"];
        git_argv GIT_DIR ["config"; "--get"; "remote.origin.dirspec"];
        git_argv GIT_DIR ["config"; "--get"; "remote.origin.fetch"];
        git_argv GIT_DIR
          ["fetch"; "https://example/repo.git";
           "+refs/heads/*:refs/remote-subdir/origin/*"];
        for_each_ref_argv GIT_DIR "refs/remote-subdir/origin/"]
       e5).
Proof.
  intros Hurl Hdirspec Hfetchcfg Hfetch Hrefs.
  unfold RemoteSubdirHelper.main.
  unfold bind at 1.
  rewrite (init_origin GIT_DIR (mkWorld _ _ e0) e1 e2 e3 Hurl Hdirspec
             Hfetchcfg).
  match goal with
  | |- RemoteSubdirHelper.process_commands _ _ _ _ ?w = _ => set (w3 := w)
  end.
  rewrite list_session.
  unfold bind at 1.
  pose proof (fetch_spec E exec GIT_DIR "https://example/repo.git"
                ["+refs/heads/*:refs/remote-subdir/origin/*"]
                w3 out 0%Z e4 Hfetch) as Hf.
  set (w4 := after_call w3 _ e4) in Hf.
  pose proof (refs_spec E exec GIT_DIR "refs/remote-subdir/origin/"
                w4 _ 0%Z e5 Hrefs) as Hr.
  rewrite (do_list_spec E exec (Scenario.helper_at GIT_DIR)
             Scenario.fetchspec []
             [("abc123", "refs/remote-subdir/origin/main")] None
             _ _ _ eq_refl Hf Hr).
  reflexivity.
Qed.

End Session.

Lemma C1_list_scenario_witness :
  RemoteSubdirHelper.main FakeGit.Repo FakeGit.exec ".git" "origin"
    ("list" ++ Str.nl ++ Str.nl) (FakeGit.start FakeGit.origin_repo)
  = (Ok tt,
     mkWorld (mkFile ("abc123 refs/heads/main" ++ Str.nl ++ Str.nl) "")
       [git_argv ".git" ["config"; "--get"; "remote.origin.url"];
        git_argv ".git" ["config"; "--get"; "remote.origin.dirspec"];
        git_argv ".git" ["config"; "--get"; "remote.origin.fetch"];
        git_argv ".git"
          ["fetch"; "https://example/repo.git";
           "+refs/heads/*:refs/remote-subdir/origin/*"];
        for_each_ref_argv ".git" "refs/remote-subdir/origin/"]
       Scenario.fetched_repo).
Proof.
  apply (C1_list_scenario FakeGit.Repo FakeGit.exec ".git" ""
           FakeGit.origin_repo FakeGit.origin_repo FakeGit.origin_repo
           FakeGit.origin_repo Scenario.fetched_repo Scenario.fetched_repo);
    reflexivity.
Defined.

(** ** Construction on an incomplete configuration *)

Section Construction.

Variable E : Type.
Variable exec : list string -> E -> string * Z * E.

Lemma collect_length {A B} (f : A -> result B) (xs : list A) (ys : list B) :
  collect f xs None = Ok ys -> length ys = length xs.
Proof.
  revert ys; induction xs as [|x xs IH]; intros ys; simpl.
  - intros H; now injection H as <-.
  - destruct (f x) as [b|e]; [|discriminate].
    destruct (collect f xs None) as [bs|e]; [|discriminate].
    intros H; injection H as <-; simpl; now rewrite (IH bs).
Qed.

(** What holds of every helper the constructor returns: a non-empty url
    outside the helper's own scheme, the two prefixes of its remote, and
    at least one refspec, each split into its fetchspec and mapspec. *)
Lemma init_invariant (git_dir remote : string) (w w' : World E)
    (self : RemoteSubdirHelper.t) :
  RemoteSubdirHelper.__init__ E exec git_dir remote w = (Ok self, w') ->
  RemoteSubdirHelper.remote self = remote
  /\ Str.truthy (RemoteSubdirHelper.url self) = true
  /\ Str.startswith (RemoteSubdirHelper.url self) "subdir:" = false
  /\ RemoteSubdirHelper.unmapped_ref_prefix self
     = RemoteSubdirHelper.UnmappedRefPrefix remote
  /\ RemoteSubdirHelper.mapped_ref_prefix self
     = RemoteSubdirHelper.MappedRefPrefix remote
  /\ RemoteSubdirHelper.fetchspecs self <> []
  /\ exists pairs,
       collect (RemoteSubdirHelper.split_refspec
                  (RemoteSubdirHelper.MappedRefPrefix remote)
                  (RemoteSubdirHelper.UnmappedRefPrefix remote))
               (RemoteSubdirHelper.refspecs self) None = Ok pairs
       /\ RemoteSubdirHelper.fetchspecs self = map fst pairs
       /\ RemoteSubdirHelper.mapspecs self = map snd pairs.
Proof.
  unfold RemoteSubdirHelper.__init__, bind, lift, raise, ret.
  destruct (Git.config_get_one E exec _ _ w) as [[url|e] w1];
    [|discriminate].
  destruct (Git.config_get_one E exec _ _ w1) as [[ds|e] w2];
    [|discriminate].
  destruct (DirSpec.parse ds) as [dirspec|e]; [|discriminate].
  destruct (Git.config_get_all E exec _ _ w2) as [[[lines last]|e] w3];
    [|discriminate].
  destruct (collect RefSpec.parse lines last) as [refspecs|e];
    [|discriminate].
  destruct url as [url|]; [|discriminate].
  destruct (Str.truthy url) eqn:Hurl; [|discriminate].
  destruct refspecs as [|r0 refspecs]; [discriminate|].
  cbn [andb negb].
  destruct (Str.startswith url "subdir:") eqn:Hnested; [discriminate|].
  destruct (collect _ (r0 :: refspecs) None) as [pairs|e] eqn:Hpairs;
    [|discriminate].
  intros H; injection H as <- <-; cbn.
  repeat split; auto.
  - apply collect_length in Hpairs.
    destruct pairs; [discriminate | discriminate].
  - exists pairs; auto.
Qed.

(** With a dirspec and refspecs that parse, a url that is not set (or is
    empty) and a fetch key that is not set are both reported as the
    ValueError of the MissingConfiguration signal. *)
Lemma init_reports_missing_url_or_fetch (git_dir remote : string)
    (w : World E) o1 rc1 e1 o2 e2 o3 rc3 e3 dirspec refspecs :
  exec (git_argv git_dir ["config"; "--get"; "remote." ++ remote ++ ".url"])
       (env w) = (o1, rc1, e1) ->
  exec (git_argv git_dir
          ["config"; "--get"; "remote." ++ remote ++ ".dirspec"]) e1
  = (o2, 0%Z, e2) ->
  exec (git_argv git_dir
          ["config"; "--get"; "remote." ++ remote ++ ".fetch"]) e2
  = (o3, rc3, e3) ->
  DirSpec.parse (Some (Str.rstrip o2)) = Ok dirspec ->
  collect RefSpec.parse (map Str.rstrip (Str.lines o3)) None = Ok refspecs ->
  rc1 <> 0%Z \/ Str.rstrip o1 = "" \/ refspecs = [] ->
  fst (RemoteSubdirHelper.__init__ E exec git_dir remote w)
  = Raise (RemoteSubdirHelper.MissingConfiguration remote).
Proof.
  intros Hurl Hdirspec Hfetch Hd Hr Hmissing.
  unfold RemoteSubdirHelper.__init__.
  unfold bind at 1.
  rewrite (config_get_one_spec E exec _ _ w _ _ _ Hurl).
  unfold bind at 1.
  rewrite (config_get_one_spec E exec _ _ (after_call w _ e1) _ _ _ Hdirspec).
  unfold bind at 1, lift at 1.
  change (0 =? 0)%Z with true; cbv iota; rewrite Hd.
  unfold bind at 1.
  rewrite (config_get_all_spec E exec _ _ (after_call _ _ e2) _ _ _ Hfetch).
  unfold bind at 1, lift at 1; rewrite Hr.
  destruct (Z.eqb_spec rc1 0) as [->|Hrc]; [|reflexivity].
  destruct Hmissing as [H|[H|H]].
  - now destruct H.
  - now rewrite H.
  - rewrite H; now destruct (Str.truthy _).
Qed.

(** C7, where the code departs from it: when the dirspec key is not set,
    [DirSpec.parse] is handed [None] before the constructor reaches its
    own check, and the constructor ends in an AttributeError, which is
    not the MissingConfiguration error. *)
Theorem C7_missing_dirspec_raises_AttributeError (git_dir remote : string)
    (w : World E) o1 rc1 e1 o2 rc2 e2 :
  exec (git_argv git_dir ["config"; "--get"; "remote." ++ remote ++ ".url"])
       (env w) = (o1, rc1, e1) ->
  exec (git_argv git_dir
          ["config"; "--get"; "remote." ++ remote ++ ".dirspec"]) e1
  = (o2, rc2, e2) ->
  rc2 <> 0%Z ->
  fst (RemoteSubdirHelper.__init__ E exec git_dir remote w)
  = Raise (AttributeError "'NoneType' object has no attribute 'split'")
  /\ fst (RemoteSubdirHelper.__init__ E exec git_dir remote w)
     <> Raise (RemoteSubdirHelper.MissingConfiguration remote).
Proof.
  intros Hurl Hdirspec Hrc.
  assert (Hinit : fst (RemoteSubdirHelper.__init__ E exec git_dir remote w)
                  = Raise (AttributeError
                             "'NoneType' object has no attribute 'split'")).
  { unfold RemoteSubdirHelper.__init__.
    unfold bind at 1.
    rewrite (config_get_one_spec E exec _ _ w _ _ _ Hurl).
    unfold bind at 1.
    rewrite (config_get_one_spec E exec _ _ (after_call w _ e1) _ _ _
               Hdirspec).
    apply Z.eqb_neq in Hrc; rewrite Hrc.
    reflexivity. }
  split; [exact Hinit|].
  rewrite Hinit; discriminate.
Qed.

End Construction.

Lemma C7_missing_dirspec_raises_AttributeError_witness :
  fst (RemoteSubdirHelper.__init__ FakeGit.Repo FakeGit.exec ".git" "origin"
         (FakeGit.start FakeGit.no_dirspec_repo))
  = Raise (AttributeError "'NoneType' object has no attribute 'split'")
  /\ fst (RemoteSubdirHelper.__init__ FakeGit.Repo FakeGit.exec ".git"
            "origin" (FakeGit.start FakeGit.no_dirspec_repo))
     <> Raise (RemoteSubdirHelper.MissingConfiguration "origin").
Proof.
  apply (C7_missing_dirspec_raises_AttributeError FakeGit.Repo FakeGit.exec
           ".git" "origin" (FakeGit.start FakeGit.no_dirspec_repo)
           ("https://example/repo.git" ++ Str.nl)%string 0%Z
           FakeGit.no_dirspec_repo "" 1%Z FakeGit.no_dirspec_repo);
    [reflexivity | reflexivity | discriminate].
Defined.

(** * Further properties of the code *)

(** ** More on strings *)

Section MoreStrFacts.

Local Open Scope string_scope.

Lemma contains_app (a b : string) (c : ascii) :
  Str.contains (a ++ b) c = Str.contains a c || Str.contains b c.
Proof.
  induction a as [|d a IH]; simpl; [reflexivity|].
  now rewrite IH, orb_assoc.
Qed.

Lemma split_without_sep (sep : ascii) (s : string) :
  Str.contains s sep = false -> Str.split sep s = [s].
Proof.
  induction s as [|c s IH]; simpl; [reflexivity|].
  intros H; apply orb_false_elim in H as [Hc Hs].
  now rewrite Hc, (IH Hs).
Qed.

Lemma split_at_sep (sep : ascii) (l r : string) :
  Str.contains l sep = false -> Str.contains r sep = false ->
  Str.split sep (l ++ String sep r) = [l; r].
Proof.
  intros Hl Hr; induction l as [|c l IH]; simpl in *.
  - now rewrite Ascii.eqb_refl, (split_without_sep _ _ Hr).
  - apply orb_false_elim in Hl as [Hc Hl].
    now rewrite Hc, (IH Hl).
Qed.

Lemma split_pieces_without_sep (sep : ascii) (s : string) :
  Forall (fun p => Str.contains p sep = false) (Str.split sep s).
Proof.
  induction s as [|c s IH]; simpl.
  - now repeat constructor.
  - destruct (Ascii.eqb c sep) eqn:Hc.
    + now constructor.
    + destruct (Str.split sep s) as [|p ps].
      * constructor; [simpl; now rewrite Hc | constructor].
      * inversion IH as [|? ? Hp Hps]; subst.
        constructor; [simpl; now rewrite Hc, Hp | assumption].
Qed.

Lemma split1_at_first_sep (sep : ascii) (l r : string) :
  Str.contains l sep = false ->
  Str.split1 sep (l ++ String sep r) = [l; r].
Proof.
  intros Hl; induction l as [|c l IH]; simpl in *.
  - now rewrite Ascii.eqb_refl.
  - apply orb_false_elim in Hl as [Hc Hl].
    now rewrite Hc, (IH Hl).
Qed.

Lemma split1_without_sep (sep : ascii) (s : string) :
  Str.contains s sep = false -> Str.split1 sep s = [s].
Proof.
  induction s as [|c s IH]; simpl; [reflexivity|].
  intros H; apply orb_false_elim in H as [Hc Hs].
  now rewrite Hc, (IH Hs).
Qed.

Lemma endswith_app_char (p : string) (c : ascii) :
  Str.endswith (p ++ String c "") c = true.
Proof.
  induction p as [|d p IH]; simpl; [apply Ascii.eqb_refl|].
  destruct (p ++ String c "") eqn:Hp; [|exact IH].
  now destruct p.
Qed.

Lemma drop_last_app_char (p : string) (c : ascii) :
  Str.drop_last (p ++ String c "") = p.
Proof.
  induction p as [|d p IH]; simpl; [reflexivity|].
  destruct (p ++ String c "") eqn:Hp; [now destruct p|].
  now rewrite IH.
Qed.

Lemma rstrip_by_nonempty_app (p : ascii -> bool) (a b : string) :
  Str.rstrip_by p b <> "" ->
  Str.rstrip_by p (a ++ b) = a ++ Str.rstrip_by p b.
Proof.
  intros Hb; induction a as [|c a IH]; simpl; [reflexivity|].
  rewrite IH.
  destruct (a ++ Str.rstrip_by p b) eqn:Ht; [|reflexivity].
  destruct a; simpl in Ht; [now destruct Hb | discriminate].
Qed.

Lemma rstrip_by_app_all (p : ascii -> bool) (b t : string) :
  Str.all p t = true -> Str.rstrip_by p (b ++ t) = Str.rstrip_by p b.
Proof.
  intros Ht; induction b as [|c b IH]; simpl.
  - now apply rstrip_by_all.
  - now rewrite IH.
Qed.

Lemma rstrip_by_keeps_head (p : ascii -> bool) (s : string) (c : ascii) :
  Str.startswith s (String c "") = false ->
  Str.startswith (Str.rstrip_by p s) (String c "") = false.
Proof.
  destruct s as [|d s]; simpl; [reflexivity|].
  rewrite andb_true_r; intros Hd.
  destruct (Str.rstrip_by p s); [destruct (p d)|]; simpl;
    now rewrite ?andb_true_r.
Qed.

Lemma rstrip_char_no_tail (c : ascii) (s : string) :
  Str.endswith (Str.rstrip_char c s) c = false.
Proof.
  unfold Str.rstrip_char.
  induction s as [|d s IH]; simpl; [reflexivity|].
  destruct (Str.rstrip_by (Ascii.eqb c) s) as [|e t] eqn:Ht.
  - destruct (Ascii.eqb c d) eqn:Hcd; simpl; [reflexivity|].
    now rewrite Ascii.eqb_sym.
  - exact IH.
Qed.

Lemma rstrip_char_fixed (c : ascii) (s : string) :
  Str.endswith s c = false -> Str.rstrip_char c s = s.
Proof.
  unfold Str.rstrip_char.
  induction s as [|d s IH]; [reflexivity|].
  destruct s as [|e s].
  - simpl; intros H; now rewrite Ascii.eqb_sym, H.
  - intros H; change (Str.endswith (String e s) c = false) in H.
    change (Str.rstrip_by (Ascii.eqb c) (String d (String e s)))
      with (match Str.rstrip_by (Ascii.eqb c) (String e s) with
            | "" => if Ascii.eqb c d then "" else String d ""
            | t => String d t
            end).
    now rewrite (IH H).
Qed.

Lemma rstrip_by_contains (p : ascii -> bool) (s : string) (c : ascii) :
  Str.contains s c = false -> Str.contains (Str.rstrip_by p s) c = false.
Proof.
  induction s as [|d s IH]; simpl; [reflexivity|].
  intros H; apply orb_false_elim in H as [Hd Hs].
  specialize (IH Hs).
  destruct (Str.rstrip_by p s); [destruct (p d)|]; simpl in *;
    now rewrite ?Hd, ?IH.
Qed.

Lemma lines_first (l rest : string) :
  Str.contains l Str.LF = false ->
  Str.lines (l ++ Str.nl ++ rest) = (l ++ Str.nl) :: Str.lines rest.
Proof.
  intros Hl; induction l as [|c l IH]; simpl in *.
  - reflexivity.
  - apply orb_false_elim in Hl as [Hc Hl].
    now rewrite Hc, (IH Hl).
Qed.

End MoreStrFacts.

(** ** More on the refspec algebra *)

(** The text [l*:r*] parses to the prefixes [l] and [r]. *)
Lemma printed_body_parses (l r : string) (force : bool) :
  Str.contains l ":" = false -> Str.contains r ":" = false ->
  match unpack2 (Str.split ":" (l ++ "*:" ++ r ++ "*")) with
  | Raise e => Raise e
  | Ok (l', r') =>
      if negb (Str.endswith l' "*" && Str.endswith r' "*")
      then Raise (ValueError ("Invalid refspec: " ++ l ++ "*:" ++ r ++ "*"))
      else Ok (RefSpec.mk (Str.drop_last l') (Str.drop_last r') force)
  end = Ok (RefSpec.mk l r force).
Proof.
  intros Hl Hr.
  replace (l ++ "*:" ++ r ++ "*")%string
    with ((l ++ "*") ++ String ":" (r ++ "*"))%string
    by now rewrite append_assoc.
  rewrite split_at_sep
    by (rewrite contains_app; simpl; now rewrite ?Hl, ?Hr).
  simpl unpack2; cbv iota.
  now rewrite !endswith_app_char, !drop_last_app_char.
Qed.

(** X1 (the other round trip): printing a refspec and parsing the text
    gives the refspec back, provided that neither prefix holds a colon
    and that a refspec without the force flag has a left prefix that
    does not itself start with a plus sign. *)
Theorem X1_str_then_parse (R : RefSpec.t) :
  Str.contains (RefSpec.left_prefix R) ":" = false ->
  Str.contains (RefSpec.right_prefix R) ":" = false ->
  (RefSpec.force R = false ->
   Str.startswith (RefSpec.left_prefix R) "+" = false) ->
  RefSpec.parse (RefSpec.__str__ R) = Ok R.
Proof.
  destruct R as [l r f]; simpl; intros Hl Hr Hplus.
  destruct f.
  - exact (printed_body_parses l r true Hl Hr).
  - specialize (Hplus eq_refl).
    assert (Hs : Str.startswith (l ++ "*:" ++ r ++ "*") "+" = false).
    { destruct l as [|c l]; [reflexivity | exact Hplus]. }
    change (RefSpec.parse (l ++ "*:" ++ r ++ "*") = Ok (RefSpec.mk l r false)).
    unfold RefSpec.parse; cbv zeta; rewrite Hs.
    exact (printed_body_parses l r false Hl Hr).
Qed.

Lemma X1_str_then_parse_witness :
  RefSpec.parse (RefSpec.__str__ Scenario.mapspec) = Ok Scenario.mapspec.
Proof.
  apply (X1_str_then_parse Scenario.mapspec); intros; reflexivity.
Defined.

(** X2 (the inverse in the other direction): whenever [rtl] maps a ref
    [y] to a name [x], [ltr] maps [x] back to exactly [y]. *)
Theorem X2_rtl_then_ltr (R : RefSpec.t) (x y : string) :
  RefSpec.rtl R y = Some x -> RefSpec.ltr R x = Some y.
Proof.
  unfold RefSpec.ltr, RefSpec.rtl.
  destruct (Str.startswith y (RefSpec.right_prefix R)) eqn:Hy;
    [|discriminate].
  intros Hx; injection Hx as <-.
  rewrite startswith_app, drop_app.
  now rewrite <- (startswith_inv _ _ Hy).
Qed.

Lemma X2_rtl_then_ltr_witness :
  RefSpec.ltr Scenario.fetchspec "refs/heads/main"
  = Some "refs/remote-subdir/origin/main".
Proof.
  apply (X2_rtl_then_ltr Scenario.fetchspec "refs/heads/main"
           "refs/remote-subdir/origin/main").
  reflexivity.
Defined.

(** X3 (no collisions): a refspec never maps two different refs to the
    same name, in either direction. *)
Theorem X3_mapping_injective (R : RefSpec.t) (x x' y : string) :
  (RefSpec.ltr R x = Some y -> RefSpec.ltr R x' = Some y -> x = x')
  /\ (RefSpec.rtl R x = Some y -> RefSpec.rtl R x' = Some y -> x = x').
Proof.
  unfold RefSpec.ltr, RefSpec.rtl; split.
  - destruct (Str.startswith x _) eqn:Hx; [|discriminate].
    destruct (Str.startswith x' _) eqn:Hx'; [|discriminate].
    intros H H'; injection H as <-; injection H' as H'.
    rewrite (startswith_inv _ _ Hx), (startswith_inv _ _ Hx').
    f_equal.
    apply (f_equal (Str.drop (String.length (RefSpec.right_prefix R)))) in H'.
    now rewrite !drop_app in H'.
  - destruct (Str.startswith x _) eqn:Hx; [|discriminate].
    destruct (Str.startswith x' _) eqn:Hx'; [|discriminate].
    intros H H'; injection H as <-; injection H' as H'.
    rewrite (startswith_inv _ _ Hx), (startswith_inv _ _ Hx').
    f_equal.
    apply (f_equal (Str.drop (String.length (RefSpec.left_prefix R)))) in H'.
    now rewrite !drop_app in H'.
Qed.

Lemma X3_mapping_injective_witness :
  "refs/heads/main" = "refs/heads/main".
Proof.
  apply (proj1 (X3_mapping_injective Scenario.refspec "refs/heads/main"
                  "refs/heads/main" "refs/remotes/origin/main"));
    reflexivity.
Defined.

(** X29 (the plus sign is ambiguous): a refspec without the force flag
    whose left prefix starts with a plus sign does not survive printing
    and parsing: the plus sign is read back as the force flag, and the
    left prefix loses it. *)
Theorem X29_leading_plus_becomes_force (l r : string) :
  Str.contains l ":" = false -> Str.contains r ":" = false ->
  RefSpec.parse (RefSpec.__str__ (RefSpec.mk ("+" ++ l) r false))
  = Ok (RefSpec.mk l r true).
Proof.
  intros Hl Hr.
  exact (printed_body_parses l r true Hl Hr).
Qed.

Lemma X29_leading_plus_becomes_force_witness :
  RefSpec.parse (RefSpec.__str__ (RefSpec.mk "+refs/heads/" "refs/x/" false))
  = Ok (RefSpec.mk "refs/heads/" "refs/x/" true).
Proof.
  apply (X29_leading_plus_becomes_force "refs/heads/" "refs/x/");
    reflexivity.
Defined.

(** ** More on dirspecs *)

(** X4 (what every parsed dirspec satisfies): neither directory starts
    with a slash, ends with a slash or holds a colon. *)
Theorem X4_parsed_dirspec_is_normal (s : string) (d : DirSpec.t) :
  DirSpec.parse (Some s) = Ok d ->
  Str.startswith (DirSpec.left_dir d) "/" = false
  /\ Str.startswith (DirSpec.right_dir d) "/" = false
  /\ Str.endswith (DirSpec.left_dir d) "/" = false
  /\ Str.endswith (DirSpec.right_dir d) "/" = false
  /\ Str.contains (DirSpec.left_dir d) ":" = false
  /\ Str.contains (DirSpec.right_dir d) ":" = false.
Proof.
  unfold DirSpec.parse.
  pose proof (split_pieces_without_sep ":" s) as Hpieces.
  destruct (unpack2 (Str.split ":" s)) as [[l r]|e] eqn:Hu; [|discriminate].
  apply unpack2_inv in Hu; rewrite Hu in Hpieces.
  inversion Hpieces as [|? ? Hl Hrest]; subst.
  inversion Hrest as [|? ? Hr _]; subst.
  destruct (Str.startswith l "/") eqn:Hsl; [discriminate|].
  destruct (Str.startswith r "/") eqn:Hsr; [discriminate|].
  simpl; intros H; injection H as <-; simpl.
  repeat split.
  - unfold Str.rstrip_char; now apply rstrip_by_keeps_head.
  - unfold Str.rstrip_char; now apply rstrip_by_keeps_head.
  - apply rstrip_char_no_tail.
  - apply rstrip_char_no_tail.
  - unfold Str.rstrip_char; now apply rstrip_by_contains.
  - unfold Str.rstrip_char; now apply rstrip_by_contains.
Qed.

Lemma X4_parsed_dirspec_is_normal_witness :
  Str.startswith (DirSpec.left_dir (DirSpec.mk "app/src" "lib")) "/" = false.
Proof.
  apply (X4_parsed_dirspec_is_normal "app/src//:lib/"
           (DirSpec.mk "app/src" "lib")).
  reflexivity.
Defined.

(** X5 (round trip on normal dirspecs): a dirspec whose directories
    neither start nor end with a slash and hold no colon is what
    [parse] returns for its printed form. *)
Theorem X5_dirspec_str_then_parse (d : DirSpec.t) :
  Str.startswith (DirSpec.left_dir d) "/" = false ->
  Str.startswith (DirSpec.right_dir d) "/" = false ->
  Str.endswith (DirSpec.left_dir d) "/" = false ->
  Str.endswith (DirSpec.right_dir d) "/" = false ->
  Str.contains (DirSpec.left_dir d) ":" = false ->
  Str.contains (DirSpec.right_dir d) ":" = false ->
  DirSpec.parse (Some (DirSpec.__str__ d)) = Ok d.
Proof.
  destruct d as [l r]; simpl; intros Hsl Hsr Hel Her Hcl Hcr.
  unfold DirSpec.parse, DirSpec.__str__; simpl DirSpec.left_dir;
    simpl DirSpec.right_dir.
  change (l ++ ":" ++ r)%string with (l ++ String ":" r)%string.
  rewrite (split_at_sep _ _ _ Hcl Hcr); simpl unpack2; cbv iota.
  rewrite Hsl, Hsr; simpl orb; cbv iota.
  now rewrite (rstrip_char_fixed _ _ Hel), (rstrip_char_fixed _ _ Her).
Qed.

Lemma X5_dirspec_str_then_parse_witness :
  DirSpec.parse (Some (DirSpec.__str__ (DirSpec.mk "app" "lib")))
  = Ok (DirSpec.mk "app" "lib").
Proof.
  apply (X5_dirspec_str_then_parse (DirSpec.mk "app" "lib")); reflexivity.
Defined.

(** X6 (trailing slashes are dropped): writing a slash after either
    directory of a dirspec text does not change what [parse] returns,
    for directories that are non-empty, relative and free of colons. *)
Theorem X6_dirspec_trailing_slash (l r : string) :
  l <> "" -> r <> "" ->
  Str.startswith l "/" = false -> Str.startswith r "/" = false ->
  Str.contains l ":" = false -> Str.contains r ":" = false ->
  DirSpec.parse (Some ((l ++ "/") ++ ":" ++ (r ++ "/")))
  = DirSpec.parse (Some (l ++ ":" ++ r)).
Proof.
  intros Hl Hr Hsl Hsr Hcl Hcr.
  assert (Hhead : forall s, s <> "" -> Str.startswith s "/" = false ->
                            Str.startswith (s ++ "/") "/" = false).
  { intros [|c s] Hs H; [now destruct Hs | exact H]. }
  assert (Hstrip : forall s, Str.rstrip_char "/" (s ++ "/")
                             = Str.rstrip_char "/" s).
  { intros s; unfold Str.rstrip_char; now apply rstrip_by_app_all. }
  unfold DirSpec.parse.
  change ((l ++ "/") ++ ":" ++ (r ++ "/"))%string
    with ((l ++ "/") ++ String ":" (r ++ "/"))%string.
  change (l ++ ":" ++ r)%string with (l ++ String ":" r)%string.
  rewrite (split_at_sep ":" (l ++ "/") (r ++ "/"))
    by (rewrite contains_app; simpl; now rewrite ?Hcl, ?Hcr).
  rewrite (split_at_sep ":" l r Hcl Hcr).
  simpl unpack2; cbv iota.
  rewrite (Hhead l Hl Hsl), (Hhead r Hr Hsr), Hsl, Hsr; simpl orb; cbv iota.
  now rewrite !Hstrip.
Qed.

Lemma X6_dirspec_trailing_slash_witness :
  DirSpec.parse (Some "app/:lib/") = DirSpec.parse (Some "app:lib").
Proof.
  apply (X6_dirspec_trailing_slash "app" "lib");
    try reflexivity; discriminate.
Defined.

(** ** More on splitting a refspec *)

Lemma startswith_app_l (a b p : string) :
  Str.startswith a p = true -> Str.startswith (a ++ b) p = true.
Proof.
  revert a; induction p as [|c p IH]; intros a H; simpl in *; [reflexivity|].
  destruct a as [|d a]; [discriminate|]; simpl.
  apply andb_prop in H as [Hc Ha].
  now rewrite Hc, (IH _ Ha).
Qed.

(** X7 (the two namespaces): when [split_refspec] accepts a refspec [R],
    the fetchspec is forced and keeps [R]'s left prefix, the mapspec
    keeps [R]'s force flag and right prefix, and the fetchspec's right
    prefix is the mapspec's left prefix.  Every ref that the fetchspec
    maps lands under the unmapped prefix, and the mapspec maps it on to
    a name under the mapped prefix, the name that [R] gives directly. *)
Theorem X7_split_refspec_namespaces (mapped unmapped : string)
    (R fetchspec mapspec : RefSpec.t) :
  RemoteSubdirHelper.split_refspec mapped unmapped R
  = Ok (fetchspec, mapspec) ->
  RefSpec.force fetchspec = true
  /\ RefSpec.force mapspec = RefSpec.force R
  /\ RefSpec.left_prefix fetchspec = RefSpec.left_prefix R
  /\ RefSpec.right_prefix mapspec = RefSpec.right_prefix R
  /\ RefSpec.right_prefix fetchspec = RefSpec.left_prefix mapspec
  /\ forall x u : string,
       RefSpec.ltr fetchspec x = Some u ->
       Str.startswith u unmapped = true
       /\ exists m,
            RefSpec.ltr mapspec u = Some m
            /\ Str.startswith m mapped = true
            /\ RefSpec.ltr R x = Some m.
Proof.
  unfold RemoteSubdirHelper.split_refspec.
  destruct (Str.startswith (RefSpec.right_prefix R) mapped) eqn:Hr;
    simpl; [|discriminate].
  intros H; injection H as <- <-; simpl.
  repeat (split; [reflexivity|]).
  intros x u; unfold RefSpec.ltr; simpl.
  destruct (Str.startswith x (RefSpec.left_prefix R)); [|discriminate].
  intros H; injection H as <-.
  split.
  - rewrite append_assoc; apply startswith_app.
  - rewrite startswith_app, drop_app.
    eexists; repeat split.
    now apply startswith_app_l.
Qed.

Lemma X7_split_refspec_namespaces_witness :
  RefSpec.force Scenario.fetchspec = true.
Proof.
  apply (X7_split_refspec_namespaces "refs/remotes/origin/"
           "refs/remote-subdir/origin/" Scenario.refspec
           Scenario.fetchspec Scenario.mapspec).
  reflexivity.
Defined.

(** ** More on the [list] handler *)

Section MoreListing.

Variable E : Type.
Variable exec : list string -> E -> string * Z * E.

(** X8 (a failed fetch): when [git fetch] exits with a non-zero status,
    [do_list] raises CalledProcessError with that status and command
    line; nothing is written, and the refs are not enumerated: the fetch
    is the only subprocess run. *)
Theorem X8_list_fetch_failure (self : RemoteSubdirHelper.t) (w : World E)
    (out : string) (rc : Z) (e' : E) :
  let argv :=
    git_argv (Git.git_dir (RemoteSubdirHelper.git self))
      ("fetch" :: RemoteSubdirHelper.url self
         :: map RefSpec.__str__ (RemoteSubdirHelper.fetchspecs self)) in
  exec argv (env w) = (out, rc, e') ->
  rc <> 0%Z ->
  RemoteSubdirHelper.do_list E exec self w
  = (Raise (CalledProcessError rc argv), after_call w argv e').
Proof.
  intros argv Hexec Hrc.
  unfold RemoteSubdirHelper.do_list; unfold bind at 1.
  destruct self as [[d] remote url ds rs up mp fs ms].
  cbn [RemoteSubdirHelper.git RemoteSubdirHelper.url
       RemoteSubdirHelper.fetchspecs Git.git_dir] in *.
  rewrite (fetch_spec E exec d url (map RefSpec.__str__ fs) w out rc e' Hexec).
  apply Z.eqb_neq in Hrc; now rewrite Hrc.
Qed.

Lemma concat_cons (x : string) (xs : list string) :
  String.concat "" (x :: xs) = (x ++ String.concat "" xs)%string.
Proof.
  destruct xs as [|y ys]; [|reflexivity].
  simpl; now rewrite append_nil_r.
Qed.

Lemma names_recovered (fetchspec0 : RefSpec.t)
    (remote_refs items : list (string * string)) :
  Forall2 (fun advertised stored =>
             fst stored = fst advertised
             /\ RefSpec.ltr fetchspec0 (snd advertised) = Some (snd stored))
          remote_refs items ->
  response_lines (RefSpec.rtl fetchspec0) items
  = response_lines Some remote_refs.
Proof.
  unfold response_lines.
  induction 1 as [|[v x] [v' u] remote_refs items [Hv Hu] _ IH];
    [reflexivity|].
  simpl in Hv, Hu; subst v'.
  cbn [map]; rewrite !concat_cons, IH.
  assert (Hrtl : RefSpec.rtl fetchspec0 u = Some x).
  { revert Hu; unfold RefSpec.ltr, RefSpec.rtl.
    destruct (Str.startswith x _) eqn:Hx; [|discriminate].
    intros H; injection H as <-.
    rewrite startswith_app, drop_app.
    now rewrite <- (startswith_inv _ _ Hx). }
  now rewrite Hrtl.
Qed.

(** X9 (refs are listed under their remote names): when the refs found
    under the unmapped prefix are the images, through the first
    fetchspec, of refs of the remote, [do_list] answers with one line
    per ref made of the object id and of the ref's name on the remote,
    then the blank line. *)
Theorem X9_list_reports_remote_names (self : RemoteSubdirHelper.t)
    (fetchspec0 : RefSpec.t) (tail : list RefSpec.t)
    (remote_refs items : list (string * string)) (w w1 w2 : World E) :
  RemoteSubdirHelper.fetchspecs self = fetchspec0 :: tail ->
  Git.fetch E exec (RemoteSubdirHelper.git self) (RemoteSubdirHelper.url self)
    (map RefSpec.__str__ (RemoteSubdirHelper.fetchspecs self)) w
  = (Ok tt, w1) ->
  Git.refs E exec (RemoteSubdirHelper.git self)
    (RemoteSubdirHelper.unmapped_ref_prefix self) w1
  = (Ok (items, None), w2) ->
  Forall2 (fun advertised stored =>
             fst stored = fst advertised
             /\ RefSpec.ltr fetchspec0 (snd advertised) = Some (snd stored))
          remote_refs items ->
  RemoteSubdirHelper.do_list E exec self w
  = (Ok tt, after_write w2 (response_lines Some remote_refs ++ Str.nl)).
Proof.
  intros Hfs Hfetch Hrefs Hstored.
  rewrite (do_list_spec E exec self fetchspec0 tail items None w w1 w2
             Hfs Hfetch Hrefs).
  now rewrite (names_recovered _ _ _ Hstored).
Qed.



End MoreListing.

Lemma X8_list_fetch_failure_witness :
  RemoteSubdirHelper.do_list FakeGit.Repo FakeGit.exec
    (RemoteSubdirHelper.mk (Git.mk ".git") "origin" "u" (DirSpec.mk "" "")
       [] "refs/remote-subdir/origin/" "refs/remotes/origin/"
       [RefSpec.mk "a:b" "c" true] [])
    (FakeGit.start FakeGit.origin_repo)
  = (Raise (CalledProcessError 128
              (git_argv ".git" ["fetch"; "u"; "+a:b*:c*"])),
     after_call (FakeGit.start FakeGit.origin_repo)
       (git_argv ".git" ["fetch"; "u"; "+a:b*:c*"]) FakeGit.origin_repo).
Proof.
  apply (X8_list_fetch_failure FakeGit.Repo FakeGit.exec
           (RemoteSubdirHelper.mk (Git.mk ".git") "origin" "u"
              (DirSpec.mk "" "") [] "refs/remote-subdir/origin/"
              "refs/remotes/origin/" [RefSpec.mk "a:b" "c" true] [])
           (FakeGit.start FakeGit.origin_repo) "" 128%Z FakeGit.origin_repo);
    [reflexivity | discriminate].
Defined.

Lemma X9_list_reports_remote_names_witness :
  RemoteSubdirHelper.do_list FakeGit.Repo FakeGit.exec Scenario.helper
    (FakeGit.start FakeGit.origin_repo)
  = (Ok tt,
     after_write
       (after_call
          (after_call (FakeGit.start FakeGit.origin_repo)
             (git_argv ".git"
                ["fetch"; "https://example/repo.git";
                 "+refs/heads/*:refs/remote-subdir/origin/*"])
             Scenario.fetched_repo)
          (for_each_ref_argv ".git" "refs/remote-subdir/origin/")
          Scenario.fetched_repo)
       (response_lines Some [("abc123", "refs/heads/main")] ++ Str.nl)).
Proof.
  apply (X9_list_reports_remote_names FakeGit.Repo FakeGit.exec
           Scenario.helper Scenario.fetchspec []
           [("abc123", "refs/heads/main")]
           [("abc123", "refs/remote-subdir/origin/main")]
           (FakeGit.start FakeGit.origin_repo)
           (after_call (FakeGit.start FakeGit.origin_repo)
              (git_argv ".git"
                 ["fetch"; "https://example/repo.git";
                  "+refs/heads/*:refs/remote-subdir/origin/*"])
              Scenario.fetched_repo));
    try reflexivity.
  repeat constructor.
Defined.


(** ** The wrappers around git *)

Lemma lines_of_terminated (ls : list string) :
  Forall (fun l => Str.contains l Str.LF = false) ls ->
  Str.lines (String.concat "" (map (fun l => (l ++ Str.nl)%string) ls))
  = map (fun l => (l ++ Str.nl)%string) ls.
Proof.
  induction 1 as [|l ls Hl _ IH]; [reflexivity|].
  cbn [map]; rewrite concat_cons, append_assoc.
  now rewrite (lines_first _ _ Hl), IH.
Qed.

Lemma lines_of_terminated_app (ls : list string) (rest : string) :
  Forall (fun l => Str.contains l Str.LF = false) ls ->
  Str.lines (String.concat "" (map (fun l => (l ++ Str.nl)%string) ls)
             ++ rest)
  = (map (fun l => (l ++ Str.nl)%string) ls ++ Str.lines rest)%list.
Proof.
  induction 1 as [|l ls Hl _ IH]; [reflexivity|].
  cbn [map]; rewrite concat_cons, !append_assoc.
  now rewrite (lines_first _ _ Hl), IH.
Qed.

Lemma rstrip_line (l : string) : Str.rstrip (l ++ Str.nl) = Str.rstrip l.
Proof. unfold Str.rstrip; now apply rstrip_by_app_all. Qed.

Lemma yield_each_app {A B} (f : A -> result B) (xs ys : list A)
    (bs : list B) (last : option exn) :
  Forall2 (fun x b => f x = Ok b) xs bs ->
  yield_each f (xs ++ ys) last
  = ((bs ++ fst (yield_each f ys last))%list, snd (yield_each f ys last)).
Proof.
  induction 1 as [|x b xs bs Hx _ IH]; simpl.
  - now destruct (yield_each f ys last).
  - now rewrite Hx, IH.
Qed.

Lemma yield_each_all {A B} (f : A -> result B) (xs : list A)
    (bs : list B) (last : option exn) :
  Forall2 (fun x b => f x = Ok b) xs bs ->
  yield_each f xs last = (bs, last).
Proof.
  intros H.
  rewrite <- (app_nil_r xs), (yield_each_app f xs [] bs last H); simpl.
  now rewrite app_nil_r.
Qed.

(** A well-formed entry of [git for-each-ref]: no NUL and no newline in
    the object id or the ref name, and no whitespace at the end of the
    ref name. *)
Lemma for_each_ref_line_parses (v n : string) :
  Str.contains v Str.NUL = false -> Str.contains n Str.NUL = false ->
  Str.rstrip n = n ->
  unpack2 (Str.split Str.NUL (Str.rstrip (for_each_ref_line (v, n))))
  = Ok (v, n).
Proof.
  intros Hv Hn Hstrip.
  unfold for_each_ref_line; cbn [fst snd].
  change (v ++ String Str.NUL n ++ Str.nl)%string
    with (v ++ (String Str.NUL n ++ Str.nl))%string.
  rewrite <- append_assoc, rstrip_line.
  assert (Htail : Str.rstrip (String Str.NUL n) = String Str.NUL n).
  { unfold Str.rstrip in *; simpl; rewrite Hstrip; now destruct n. }
  unfold Str.rstrip in *.
  rewrite rstrip_by_nonempty_app by (rewrite Htail; discriminate).
  now rewrite Htail, (split_at_sep _ _ _ Hv Hn).
Qed.

Lemma ls_remote_line_parses (v n : string) :
  Str.contains v Str.TAB = false -> n <> "" -> Str.rstrip n = n ->
  unpack2 (Str.split1 Str.TAB (Str.rstrip (ls_remote_line (v, n))))
  = Ok (v, n).
Proof.
  intros Hv Hne Hstrip.
  unfold ls_remote_line; cbn [fst snd].
  change (v ++ String Str.TAB n ++ Str.nl)%string
    with (v ++ (String Str.TAB n ++ Str.nl))%string.
  rewrite <- append_assoc, rstrip_line.
  assert (Htail : Str.rstrip (String Str.TAB n) = String Str.TAB n).
  { unfold Str.rstrip in *; simpl; rewrite Hstrip.
    destruct n; [now destruct Hne | reflexivity]. }
  unfold Str.rstrip in *.
  rewrite rstrip_by_nonempty_app by (rewrite Htail; discriminate).
  now rewrite Htail, (split1_at_first_sep _ _ _ Hv).
Qed.

Lemma rstrip_terminated (values : list string) :
  Forall (fun v => Str.contains v Str.LF = false /\ Str.rstrip v = v)
         values ->
  map Str.rstrip (map (fun v => (v ++ Str.nl)%string) values) = values.
Proof.
  induction 1 as [|v values [_ Hv] _ IH]; [reflexivity|].
  cbn [map]; now rewrite rstrip_line, Hv, IH.
Qed.

(** The lines of a listing, cut before their newlines. *)
Lemma listing_lines (sep : ascii) (entries : list (string * string)) :
  map (fun entry => (fst entry ++ String sep (snd entry) ++ Str.nl)%string)
      entries
  = map (fun l => (l ++ Str.nl)%string)
        (map (fun entry => (fst entry ++ String sep (snd entry))%string)
             entries).
Proof.
  rewrite map_map; apply map_ext; intros [v n]; cbn [fst snd].
  now rewrite append_assoc.
Qed.

Lemma listing_lines_no_newline (sep : ascii)
    (entries : list (string * string)) :
  Ascii.eqb sep Str.LF = false ->
  Forall (fun entry =>
            Str.contains (fst entry) Str.LF = false
            /\ Str.contains (snd entry) Str.LF = false) entries ->
  Forall (fun l => Str.contains l Str.LF = false)
         (map (fun entry => (fst entry ++ String sep (snd entry))%string)
              entries).
Proof.
  intros Hsep; induction 1 as [|[v n] entries [Hv Hn] _ IH];
    constructor; [|exact IH].
  cbn [fst snd] in *; rewrite contains_app; simpl.
  now rewrite Hv, Hn, Hsep.
Qed.

Lemma for_each_ref_entries_parse (entries : list (string * string)) :
  Forall (fun entry =>
            Str.contains (fst entry) Str.NUL = false
            /\ Str.contains (snd entry) Str.NUL = false
            /\ Str.contains (fst entry) Str.LF = false
            /\ Str.contains (snd entry) Str.LF = false
            /\ Str.rstrip (snd entry) = snd entry) entries ->
  Forall2 (fun line entry =>
             unpack2 (Str.split Str.NUL (Str.rstrip line)) = Ok entry)
          (map for_each_ref_line entries) entries
  /\ Forall (fun entry =>
               Str.contains (fst entry) Str.LF = false
               /\ Str.contains (snd entry) Str.LF = false) entries.
Proof.
  induction 1 as [|[v n] entries (Hv & Hn & Hlv & Hln & Hs) _ [IH1 IH2]];
    split; constructor; auto.
  now apply for_each_ref_line_parses.
Qed.

Lemma ls_remote_entries_parse (entries : list (string * string)) :
  Forall (fun entry =>
            Str.contains (fst entry) Str.TAB = false
            /\ Str.contains (fst entry) Str.LF = false
            /\ Str.contains (snd entry) Str.LF = false
            /\ snd entry <> ""
            /\ Str.rstrip (snd entry) = snd entry) entries ->
  Forall2 (fun line entry =>
             unpack2 (Str.split1 Str.TAB (Str.rstrip line)) = Ok entry)
          (map ls_remote_line entries) entries
  /\ Forall (fun entry =>
               Str.contains (fst entry) Str.LF = false
               /\ Str.contains (snd entry) Str.LF = false) entries.
Proof.
  induction 1 as [|[v n] entries (Hv & Hlv & Hln & Hne & Hs) _ [IH1 IH2]];
    split; constructor; auto.
  now apply ls_remote_line_parses.
Qed.

Section MoreGit.

Variable E : Type.
Variable exec : list string -> E -> string * Z * E.


(** X12 (the values of a multi-valued key): when git prints one value
    per line, [config_get_all] yields exactly these values, for values
    that hold no newline and end in no whitespace; it never ends in an
    error, whatever the exit status of git. *)
Theorem X12_config_get_all_values (d key : string) (w : World E)
    (values : list string) (rc : Z) (e' : E) :
  Forall (fun v => Str.contains v Str.LF = false /\ Str.rstrip v = v)
         values ->
  exec (config_argv d key) (env w)
  = (String.concat "" (map (fun v => (v ++ Str.nl)%string) values), rc, e') ->
  Git.config_get_all E exec (Git.mk d) key w
  = (Ok (values, None), after_call w (config_argv d key) e').
Proof.
  intros Hvalues Hexec.
  rewrite (config_get_all_spec E exec d key w _ rc e' Hexec).
  rewrite lines_of_terminated
    by (eapply Forall_impl; [|exact Hvalues]; now intros v [Hv _]).
  now rewrite (rstrip_terminated _ Hvalues).
Qed.

(** X13 (reading the refs back): when [git for-each-ref] prints one
    well-formed line per ref (object id, NUL, ref name, newline; no NUL
    or newline inside either field, no whitespace at the end of the
    name), [Git.refs] yields exactly these (object id, ref name) pairs,
    in order, and ends in CalledProcessError only if git exits with a
    non-zero status. *)
Theorem X13_refs_reads_entries (d pattern : string) (w : World E)
    (entries : list (string * string)) (rc : Z) (e' : E) :
  Forall (fun entry =>
            Str.contains (fst entry) Str.NUL = false
            /\ Str.contains (snd entry) Str.NUL = false
            /\ Str.contains (fst entry) Str.LF = false
            /\ Str.contains (snd entry) Str.LF = false
            /\ Str.rstrip (snd entry) = snd entry) entries ->
  exec (for_each_ref_argv d pattern) (env w)
  = (String.concat "" (map for_each_ref_line entries), rc, e') ->
  Git.refs E exec (Git.mk d) pattern w
  = (Ok (entries,
         if (rc =? 0)%Z then None
         else Some (CalledProcessError rc (for_each_ref_argv d pattern))),
     after_call w (for_each_ref_argv d pattern) e').
Proof.
  intros Hentries Hexec.
  rewrite (refs_spec E exec d pattern w _ rc e' Hexec).
  destruct (for_each_ref_entries_parse entries Hentries) as [Hparse Hlf].
  unfold for_each_ref_line at 1.
  rewrite (listing_lines Str.NUL entries).
  rewrite lines_of_terminated
    by now apply listing_lines_no_newline.
  rewrite <- (listing_lines Str.NUL entries).
  now rewrite (yield_each_all _ _ _ _ Hparse).
Qed.

(** X14 (a line that is not an entry): when the output of
    [git for-each-ref] holds, after some well-formed lines, a line
    without a NUL, [Git.refs] yields the pairs of the lines before it
    and then ends in the ValueError of the failed unpacking; the lines
    after it are never read. *)
Theorem X14_refs_stops_at_bad_line (d pattern : string) (w : World E)
    (entries : list (string * string)) (bad rest : string) (rc : Z)
    (e' : E) :
  Forall (fun entry =>
            Str.contains (fst entry) Str.NUL = false
            /\ Str.contains (snd entry) Str.NUL = false
            /\ Str.contains (fst entry) Str.LF = false
            /\ Str.contains (snd entry) Str.LF = false
            /\ Str.rstrip (snd entry) = snd entry) entries ->
  Str.contains bad Str.NUL = false ->
  Str.contains bad Str.LF = false ->
  exec (for_each_ref_argv d pattern) (env w)
  = ((String.concat "" (map for_each_ref_line entries)
      ++ bad ++ Str.nl ++ rest)%string, rc, e') ->
  Git.refs E exec (Git.mk d) pattern w
  = (Ok (entries,
         Some (ValueError "not enough values to unpack (expected 2, got 1)")),
     after_call w (for_each_ref_argv d pattern) e').
Proof.
  intros Hentries Hnul Hbad Hexec.
  rewrite (refs_spec E exec d pattern w _ rc e' Hexec).
  destruct (for_each_ref_entries_parse entries Hentries) as [Hparse Hlf].
  unfold for_each_ref_line at 1.
  rewrite (listing_lines Str.NUL entries).
  rewrite lines_of_terminated_app
    by now apply listing_lines_no_newline.
  rewrite <- (listing_lines Str.NUL entries), (lines_first _ _ Hbad).
  rewrite (yield_each_app _ _ _ _ _ Hparse).
  cbn [yield_each]; rewrite rstrip_line.
  rewrite split_without_sep
    by (unfold Str.rstrip; now apply rstrip_by_contains).
  cbn; now rewrite app_nil_r.
Qed.

(** X15 (reading the advertisement): when [git ls-remote] prints one
    line per ref (object id, TAB, ref name, newline; no TAB or newline
    in the object id, a non-empty name without newline that ends in no
    whitespace), [Git.ls_remote] yields exactly these pairs, in order;
    a TAB inside the name stays in the name. *)
Theorem X15_ls_remote_reads_entries (d remote_or_url : string) (w : World E)
    (entries : list (string * string)) (rc : Z) (e' : E) :
  Forall (fun entry =>
            Str.contains (fst entry) Str.TAB = false
            /\ Str.contains (fst entry) Str.LF = false
            /\ Str.contains (snd entry) Str.LF = false
            /\ snd entry <> ""
            /\ Str.rstrip (snd entry) = snd entry) entries ->
  exec (ls_remote_argv d remote_or_url) (env w)
  = (String.concat "" (map ls_remote_line entries), rc, e') ->
  Git.ls_remote E exec (Git.mk d) remote_or_url w
  = (Ok (entries,
         if (rc =? 0)%Z then None
         else Some (CalledProcessError rc (ls_remote_argv d remote_or_url))),
     after_call w (ls_remote_argv d remote_or_url) e').
Proof.
  intros Hentries Hexec.
  unfold Git.ls_remote, check_output_lines, bind.
  fold (git_argv d ["ls-remote"; remote_or_url]).
  fold (ls_remote_argv d remote_or_url).
  rewrite (Popen_spec E exec _ w _ _ _ Hexec).
  destruct (ls_remote_entries_parse entries Hentries) as [Hparse Hlf].
  unfold ls_remote_line at 1.
  rewrite (listing_lines Str.TAB entries).
  rewrite lines_of_terminated
    by now apply listing_lines_no_newline.
  rewrite <- (listing_lines Str.TAB entries).
  unfold ret; now rewrite (yield_each_all _ _ _ _ Hparse).
Qed.

End MoreGit.


Lemma X12_config_get_all_values_witness :
  Git.config_get_all FakeGit.Repo FakeGit.exec (Git.mk ".git")
    "remote.origin.fetch" (FakeGit.start FakeGit.origin_repo)
  = (Ok (["+refs/heads/*:refs/remotes/origin/*"], None),
     after_call (FakeGit.start FakeGit.origin_repo)
       (config_argv ".git" "remote.origin.fetch") FakeGit.origin_repo).
Proof.
  apply (X12_config_get_all_values FakeGit.Repo FakeGit.exec ".git"
           "remote.origin.fetch" (FakeGit.start FakeGit.origin_repo)
           ["+refs/heads/*:refs/remotes/origin/*"] 0%Z FakeGit.origin_repo);
    [repeat constructor | reflexivity].
Defined.

Lemma X13_refs_reads_entries_witness :
  Git.refs FakeGit.Repo FakeGit.exec (Git.mk ".git")
    "refs/remote-subdir/origin/" (FakeGit.start Scenario.fetched_repo)
  = (Ok ([("abc123", "refs/remote-subdir/origin/main")], None),
     after_call (FakeGit.start Scenario.fetched_repo)
       (for_each_ref_argv ".git" "refs/remote-subdir/origin/")
       Scenario.fetched_repo).
Proof.
  apply (X13_refs_reads_entries FakeGit.Repo FakeGit.exec ".git"
           "refs/remote-subdir/origin/" (FakeGit.start Scenario.fetched_repo)
           [("abc123", "refs/remote-subdir/origin/main")] 0%Z
           Scenario.fetched_repo);
    [repeat constructor | reflexivity].
Defined.

Lemma X14_refs_stops_at_bad_line_witness :
  Git.refs unit
    (fun _ e =>
       ((for_each_ref_line ("abc123", "refs/remote-subdir/origin/main")
         ++ "warning: ignoring broken ref" ++ Str.nl
         ++ for_each_ref_line ("def456", "refs/remote-subdir/origin/next"))
        %string, 0%Z, e))
    (Git.mk ".git") "refs/remote-subdir/origin/"
    (mkWorld (mkFile "" "") [] tt)
  = (Ok ([("abc123", "refs/remote-subdir/origin/main")],
         Some (ValueError "not enough values to unpack (expected 2, got 1)")),
     after_call (mkWorld (mkFile "" "") [] tt)
       (for_each_ref_argv ".git" "refs/remote-subdir/origin/") tt).
Proof.
  apply (X14_refs_stops_at_bad_line unit _ ".git"
           "refs/remote-subdir/origin/" (mkWorld (mkFile "" "") [] tt)
           [("abc123", "refs/remote-subdir/origin/main")]
           "warning: ignoring broken ref"
           (for_each_ref_line ("def456", "refs/remote-subdir/origin/next"))
           0%Z tt);
    [repeat constructor | reflexivity | reflexivity | reflexivity].
Defined.

Lemma X15_ls_remote_reads_entries_witness :
  Git.ls_remote unit
    (fun _ e => (ls_remote_line ("abc123", "refs/heads/main"), 0%Z, e))
    (Git.mk ".git") "origin" (mkWorld (mkFile "" "") [] tt)
  = (Ok ([("abc123", "refs/heads/main")], None),
     after_call (mkWorld (mkFile "" "") [] tt)
       (ls_remote_argv ".git" "origin") tt).
Proof.
  apply (X15_ls_remote_reads_entries unit _ ".git" "origin"
           (mkWorld (mkFile "" "") [] tt)
           [("abc123", "refs/heads/main")] 0%Z tt);
    [repeat constructor; discriminate | reflexivity].
Defined.

(** ** More on construction *)

Section MoreConstruction.

Variable E : Type.
Variable exec : list string -> E -> string * Z * E.

(** The world after the three configuration reads of the constructor. *)
Lemma init_reads (git_dir remote : string) (w : World E)
    o1 rc1 e1 o2 rc2 e2 o3 rc3 e3 dirspec refspecs :
  exec (config_argv git_dir ("remote." ++ remote ++ ".url")) (env w)
  = (o1, rc1, e1) ->
  exec (config_argv git_dir ("remote." ++ remote ++ ".dirspec")) e1
  = (o2, rc2, e2) ->
  exec (config_argv git_dir ("remote." ++ remote ++ ".fetch")) e2
  = (o3, rc3, e3) ->
  DirSpec.parse (if (rc2 =? 0)%Z then Some (Str.rstrip o2) else None)
  = Ok dirspec ->
  collect RefSpec.parse (map Str.rstrip (Str.lines o3)) None = Ok refspecs ->
  RemoteSubdirHelper.__init__ E exec git_dir remote w
  = (match (if (rc1 =? 0)%Z then Some (Str.rstrip o1) else None) with
     | None => Raise (RemoteSubdirHelper.MissingConfiguration remote)
     | Some url =>
         if negb (Str.truthy url && true
                  && match refspecs with [] => false | _ => true end)
         then Raise (RemoteSubdirHelper.MissingConfiguration remote)
         else if Str.startswith url "subdir:"
         then Raise (RemoteSubdirHelper.NestedSubdirRemote remote)
         else
           match collect
                   (RemoteSubdirHelper.split_refspec
                      (RemoteSubdirHelper.MappedRefPrefix remote)
                      (RemoteSubdirHelper.UnmappedRefPrefix remote))
                   refspecs None with
           | Raise e => Raise e
           | Ok pairs =>
               Ok (RemoteSubdirHelper.mk (Git.mk git_dir) remote url dirspec
                     refspecs (RemoteSubdirHelper.UnmappedRefPrefix remote)
                     (RemoteSubdirHelper.MappedRefPrefix remote)
                     (map fst pairs) (map snd pairs))
           end
     end,
     after_call
       (after_call
          (after_call w
             (config_argv git_dir ("remote." ++ remote ++ ".url")) e1)
          (config_argv git_dir ("remote." ++ remote ++ ".dirspec")) e2)
       (config_argv git_dir ("remote." ++ remote ++ ".fetch")) e3).
Proof.
  intros Hurl Hdirspec Hfetch Hd Hr.
  unfold RemoteSubdirHelper.__init__.
  unfold bind at 1.
  rewrite (config_get_one_spec E exec _ _ w _ _ _ Hurl).
  unfold bind at 1.
  rewrite (config_get_one_spec E exec _ _ (after_call w _ e1) _ _ _ Hdirspec).
  unfold bind at 1, lift at 1; rewrite Hd.
  unfold bind at 1.
  rewrite (config_get_all_spec E exec _ _ (after_call _ _ e2) _ _ _ Hfetch).
  unfold bind at 1, lift at 1; rewrite Hr.
  destruct (rc1 =? 0)%Z; [|reflexivity].
  destruct (negb _); [reflexivity|].
  destruct (Str.startswith _ "subdir:"); [reflexivity|].
  unfold bind, lift, ret.
  now destruct (collect _ refspecs None).
Qed.

(** X16 (what the constructor guarantees): every helper that the
    constructor returns has a non-empty url that does not start with
    [subdir:], the two prefixes of its remote, and at least one
    fetchspec; its fetchspecs and mapspecs are the two halves of its
    refspecs, split in order. *)
Theorem X16_constructed_helper (git_dir remote : string) (w w' : World E)
    (self : RemoteSubdirHelper.t) :
  RemoteSubdirHelper.__init__ E exec git_dir remote w = (Ok self, w') ->
  RemoteSubdirHelper.remote self = remote
  /\ Str.truthy (RemoteSubdirHelper.url self) = true
  /\ Str.startswith (RemoteSubdirHelper.url self) "subdir:" = false
  /\ RemoteSubdirHelper.unmapped_ref_prefix self
     = RemoteSubdirHelper.UnmappedRefPrefix remote
  /\ RemoteSubdirHelper.mapped_ref_prefix self
     = RemoteSubdirHelper.MappedRefPrefix remote
  /\ RemoteSubdirHelper.fetchspecs self <> []
  /\ exists pairs,
       collect (RemoteSubdirHelper.split_refspec
                  (RemoteSubdirHelper.MappedRefPrefix remote)
                  (RemoteSubdirHelper.UnmappedRefPrefix remote))
               (RemoteSubdirHelper.refspecs self) None = Ok pairs
       /\ RemoteSubdirHelper.fetchspecs self = map fst pairs
       /\ RemoteSubdirHelper.mapspecs self = map snd pairs.
Proof. apply init_invariant. Qed.

(** X17 (a dirspec that does not parse): whatever the dirspec read
    gives, if [DirSpec.parse] rejects it the constructor ends in that
    error right away, whether or not the url is set, and the fetch
    refspecs are never read. *)
Theorem X17_init_stops_at_bad_dirspec (git_dir remote : string)
    (w : World E) o1 rc1 e1 o2 rc2 e2 (e : exn) :
  exec (config_argv git_dir ("remote." ++ remote ++ ".url")) (env w)
  = (o1, rc1, e1) ->
  exec (config_argv git_dir ("remote." ++ remote ++ ".dirspec")) e1
  = (o2, rc2, e2) ->
  DirSpec.parse (if (rc2 =? 0)%Z then Some (Str.rstrip o2) else None)
  = Raise e ->
  RemoteSubdirHelper.__init__ E exec git_dir remote w
  = (Raise e,
     after_call
       (after_call w
          (config_argv git_dir ("remote." ++ remote ++ ".url")) e1)
       (config_argv git_dir ("remote." ++ remote ++ ".dirspec")) e2).
Proof.
  intros Hurl Hdirspec Hd.
  unfold RemoteSubdirHelper.__init__.
  unfold bind at 1.
  rewrite (config_get_one_spec E exec _ _ w _ _ _ Hurl).
  unfold bind at 1.
  rewrite (config_get_one_spec E exec _ _ (after_call w _ e1) _ _ _ Hdirspec).
  unfold bind at 1, lift at 1; now rewrite Hd.
Qed.

(** X18 (a refspec that does not parse): with a dirspec that parses, the
    first fetch refspec that [RefSpec.parse] rejects ends the
    constructor in that error, also when the url is not set. *)
Theorem X18_init_stops_at_bad_refspec (git_dir remote : string)
    (w : World E) o1 rc1 e1 o2 rc2 e2 o3 rc3 e3 dirspec (e : exn) :
  exec (config_argv git_dir ("remote." ++ remote ++ ".url")) (env w)
  = (o1, rc1, e1) ->
  exec (config_argv git_dir ("remote." ++ remote ++ ".dirspec")) e1
  = (o2, rc2, e2) ->
  exec (config_argv git_dir ("remote." ++ remote ++ ".fetch")) e2
  = (o3, rc3, e3) ->
  DirSpec.parse (if (rc2 =? 0)%Z then Some (Str.rstrip o2) else None)
  = Ok dirspec ->
  collect RefSpec.parse (map Str.rstrip (Str.lines o3)) None = Raise e ->
  fst (RemoteSubdirHelper.__init__ E exec git_dir remote w) = Raise e.
Proof.
  intros Hurl Hdirspec Hfetch Hd Hr.
  unfold RemoteSubdirHelper.__init__.
  unfold bind at 1.
  rewrite (config_get_one_spec E exec _ _ w _ _ _ Hurl).
  unfold bind at 1.
  rewrite (config_get_one_spec E exec _ _ (after_call w _ e1) _ _ _ Hdirspec).
  unfold bind at 1, lift at 1; rewrite Hd.
  unfold bind at 1.
  rewrite (config_get_all_spec E exec _ _ (after_call _ _ e2) _ _ _ Hfetch).
  unfold bind at 1, lift at 1; now rewrite Hr.
Qed.

(** X19 (a url in the helper's own scheme): with a dirspec and at least
    one refspec that parse, a url that starts with [subdir:] is refused
    with the ValueError of the NestedSubdirRemote signal, before any
    refspec is split. *)
Theorem X19_init_refuses_nested_url (git_dir remote : string)
    (w : World E) o1 e1 o2 rc2 e2 o3 rc3 e3 dirspec refspecs :
  exec (config_argv git_dir ("remote." ++ remote ++ ".url")) (env w)
  = (o1, 0%Z, e1) ->
  exec (config_argv git_dir ("remote." ++ remote ++ ".dirspec")) e1
  = (o2, rc2, e2) ->
  exec (config_argv git_dir ("remote." ++ remote ++ ".fetch")) e2
  = (o3, rc3, e3) ->
  DirSpec.parse (if (rc2 =? 0)%Z then Some (Str.rstrip o2) else None)
  = Ok dirspec ->
  collect RefSpec.parse (map Str.rstrip (Str.lines o3)) None = Ok refspecs ->
  refspecs <> [] ->
  Str.startswith (Str.rstrip o1) "subdir:" = true ->
  fst (RemoteSubdirHelper.__init__ E exec git_dir remote w)
  = Raise (RemoteSubdirHelper.NestedSubdirRemote remote).
Proof.
  intros Hurl Hdirspec Hfetch Hd Hr Hne Hnested.
  rewrite (init_reads git_dir remote w _ _ _ _ _ _ _ _ _ _ _
             Hurl Hdirspec Hfetch Hd Hr).
  cbn [fst Z.eqb]; rewrite Hnested.
  destruct (Str.rstrip o1); [discriminate|].
  now destruct refspecs.
Qed.

End MoreConstruction.

Lemma collect_split_ok (mapped unmapped : string)
    (refspecs : list RefSpec.t) :
  Forall (fun R => Str.startswith (RefSpec.right_prefix R) mapped = true)
         refspecs ->
  collect (RemoteSubdirHelper.split_refspec mapped unmapped) refspecs None
  = Ok (map (fun R =>
               let updated :=
                 (unmapped ++ Str.drop (String.length mapped)
                                       (RefSpec.right_prefix R))%string in
               (RefSpec.mk (RefSpec.left_prefix R) updated true,
                RefSpec.mk updated (RefSpec.right_prefix R)
                           (RefSpec.force R)))
            refspecs).
Proof.
  induction 1 as [|R refspecs HR _ IH]; [reflexivity|].
  cbn [collect map]; rewrite IH.
  unfold RemoteSubdirHelper.split_refspec; now rewrite HR.
Qed.

Lemma collect_split_fail (mapped unmapped : string)
    (good rest : list RefSpec.t) (bad : RefSpec.t) :
  Forall (fun R => Str.startswith (RefSpec.right_prefix R) mapped = true)
         good ->
  Str.startswith (RefSpec.right_prefix bad) mapped = false ->
  collect (RemoteSubdirHelper.split_refspec mapped unmapped)
          (good ++ bad :: rest) None
  = Raise (ValueError ("Cannot work with refspec " ++ RefSpec.__str__ bad
                       ++ ". The right side does not start with "
                       ++ mapped ++ "!")).
Proof.
  intros Hgood Hbad.
  induction Hgood as [|R good HR _ IH]; cbn [collect app].
  - unfold RemoteSubdirHelper.split_refspec; now rewrite Hbad.
  - rewrite IH.
    unfold RemoteSubdirHelper.split_refspec at 1; now rewrite HR.
Qed.

Section MoreConstruction2.

Variable E : Type.
Variable exec : list string -> E -> string * Z * E.

(** X20 (a refspec outside the remote's namespace): with a url, a
    dirspec and refspecs that are all acceptable so far, the first
    refspec whose right prefix does not start with
    [refs/remotes/<remote>/] ends the constructor in a ValueError that
    names this refspec and the expected prefix. *)
Theorem X20_init_refuses_foreign_namespace (git_dir remote : string)
    (w : World E) o1 e1 o2 rc2 e2 o3 rc3 e3 dirspec
    (good rest : list RefSpec.t) (bad : RefSpec.t) :
  exec (config_argv git_dir ("remote." ++ remote ++ ".url")) (env w)
  = (o1, 0%Z, e1) ->
  exec (config_argv git_dir ("remote." ++ remote ++ ".dirspec")) e1
  = (o2, rc2, e2) ->
  exec (config_argv git_dir ("remote." ++ remote ++ ".fetch")) e2
  = (o3, rc3, e3) ->
  DirSpec.parse (if (rc2 =? 0)%Z then Some (Str.rstrip o2) else None)
  = Ok dirspec ->
  collect RefSpec.parse (map Str.rstrip (Str.lines o3)) None
  = Ok (good ++ bad :: rest)%list ->
  Str.truthy (Str.rstrip o1) = true ->
  Str.startswith (Str.rstrip o1) "subdir:" = false ->
  Forall (fun R =>
            Str.startswith (RefSpec.right_prefix R)
              (RemoteSubdirHelper.MappedRefPrefix remote) = true) good ->
  Str.startswith (RefSpec.right_prefix bad)
    (RemoteSubdirHelper.MappedRefPrefix remote) = false ->
  fst (RemoteSubdirHelper.__init__ E exec git_dir remote w)
  = Raise (ValueError ("Cannot work with refspec " ++ RefSpec.__str__ bad
                       ++ ". The right side does not start with "
                       ++ RemoteSubdirHelper.MappedRefPrefix remote ++ "!")).
Proof.
  intros Hurl Hdirspec Hfetch Hd Hr Htruthy Hnested Hgood Hbad.
  rewrite (init_reads E exec git_dir remote w _ _ _ _ _ _ _ _ _ _ _
             Hurl Hdirspec Hfetch Hd Hr).
  cbn [fst Z.eqb]; rewrite Htruthy, Hnested.
  rewrite (collect_split_fail _ _ _ _ _ Hgood Hbad).
  now destruct good.
Qed.

(** X21 (a complete configuration): with a non-empty url outside the
    helper's scheme, a dirspec that parses and at least one refspec, all
    of them with a right prefix under [refs/remotes/<remote>/], the
    constructor succeeds after its three configuration reads; each
    refspec [l*:refs/remotes/<remote>/s*] gives the forced fetchspec
    [l*:refs/remote-subdir/<remote>/s*] and the mapspec from there to
    the refspec's own right side, in the order of the refspecs. *)
Theorem X21_init_succeeds (git_dir remote : string)
    (w : World E) o1 e1 o2 rc2 e2 o3 rc3 e3 dirspec
    (refspecs : list RefSpec.t) :
  exec (config_argv git_dir ("remote." ++ remote ++ ".url")) (env w)
  = (o1, 0%Z, e1) ->
  exec (config_argv git_dir ("remote." ++ remote ++ ".dirspec")) e1
  = (o2, rc2, e2) ->
  exec (config_argv git_dir ("remote." ++ remote ++ ".fetch")) e2
  = (o3, rc3, e3) ->
  DirSpec.parse (if (rc2 =? 0)%Z then Some (Str.rstrip o2) else None)
  = Ok dirspec ->
  collect RefSpec.parse (map Str.rstrip (Str.lines o3)) None = Ok refspecs ->
  Str.truthy (Str.rstrip o1) = true ->
  Str.startswith (Str.rstrip o1) "subdir:" = false ->
  refspecs <> [] ->
  Forall (fun R =>
            Str.startswith (RefSpec.right_prefix R)
              (RemoteSubdirHelper.MappedRefPrefix remote) = true)
         refspecs ->
  let updated R :=
    (RemoteSubdirHelper.UnmappedRefPrefix remote
     ++ Str.drop (String.length (RemoteSubdirHelper.MappedRefPrefix remote))
                 (RefSpec.right_prefix R))%string in
  RemoteSubdirHelper.__init__ E exec git_dir remote w
  = (Ok (RemoteSubdirHelper.mk (Git.mk git_dir) remote (Str.rstrip o1)
           dirspec refspecs
           (RemoteSubdirHelper.UnmappedRefPrefix remote)
           (RemoteSubdirHelper.MappedRefPrefix remote)
           (map (fun R => RefSpec.mk (RefSpec.left_prefix R) (updated R) true)
                refspecs)
           (map (fun R => RefSpec.mk (updated R) (RefSpec.right_prefix R)
                                     (RefSpec.force R))
                refspecs)),
     after_call
       (after_call
          (after_call w
             (config_argv git_dir ("remote." ++ remote ++ ".url")) e1)
          (config_argv git_dir ("remote." ++ remote ++ ".dirspec")) e2)
       (config_argv git_dir ("remote." ++ remote ++ ".fetch")) e3).
Proof.
  intros Hurl Hdirspec Hfetch Hd Hr Htruthy Hnested Hne Hgood updated.
  rewrite (init_reads E exec git_dir remote w _ _ _ _ _ _ _ _ _ _ _
             Hurl Hdirspec Hfetch Hd Hr).
  cbn [Z.eqb]; rewrite Htruthy, Hnested.
  rewrite (collect_split_ok _ _ _ Hgood), !map_map; cbn [fst snd].
  now destruct refspecs.
Qed.

End MoreConstruction2.

Lemma X16_constructed_helper_witness :
  RemoteSubdirHelper.fetchspecs Scenario.helper <> [].
Proof.
  apply (X16_constructed_helper FakeGit.Repo FakeGit.exec ".git" "origin"
           (FakeGit.start FakeGit.origin_repo)
           (after_call
              (after_call
                 (after_call (FakeGit.start FakeGit.origin_repo)
                    (config_argv ".git" "remote.origin.url")
                    FakeGit.origin_repo)
                 (config_argv ".git" "remote.origin.dirspec")
                 FakeGit.origin_repo)
              (config_argv ".git" "remote.origin.fetch")
              FakeGit.origin_repo)
           Scenario.helper).
  reflexivity.
Defined.

Lemma X17_init_stops_at_bad_dirspec_witness :
  RemoteSubdirHelper.__init__ FakeGit.Repo FakeGit.exec ".git" "origin"
    (FakeGit.start
       (FakeGit.mk [("remote.origin.dirspec", "/abs:lib")] [] []))
  = (Raise (ValueError "Invalid dirspec: /abs:lib"),
     after_call
       (after_call
          (FakeGit.start
             (FakeGit.mk [("remote.origin.dirspec", "/abs:lib")] [] []))
          (config_argv ".git" "remote.origin.url")
          (FakeGit.mk [("remote.origin.dirspec", "/abs:lib")] [] []))
       (config_argv ".git" "remote.origin.dirspec")
       (FakeGit.mk [("remote.origin.dirspec", "/abs:lib")] [] [])).
Proof.
  apply (X17_init_stops_at_bad_dirspec FakeGit.Repo FakeGit.exec ".git"
           "origin" _ "" 1%Z _ ("/abs:lib" ++ Str.nl)%string 0%Z);
    reflexivity.
Defined.

Lemma X18_init_stops_at_bad_refspec_witness :
  fst (RemoteSubdirHelper.__init__ FakeGit.Repo FakeGit.exec ".git" "origin"
         (FakeGit.start
            (FakeGit.mk [("remote.origin.dirspec", ":");
                         ("remote.origin.fetch", "refs/heads/main:x*")]
                        [] [])))
  = Raise (ValueError "Invalid refspec: refs/heads/main:x*").
Proof.
  apply (X18_init_stops_at_bad_refspec FakeGit.Repo FakeGit.exec ".git"
           "origin" _ "" 1%Z
           (FakeGit.mk [("remote.origin.dirspec", ":");
                        ("remote.origin.fetch", "refs/heads/main:x*")]
                       [] [])
           (":" ++ Str.nl)%string 0%Z
           (FakeGit.mk [("remote.origin.dirspec", ":");
                        ("remote.origin.fetch", "refs/heads/main:x*")]
                       [] [])
           ("refs/heads/main:x*" ++ Str.nl)%string 0%Z
           (FakeGit.mk [("remote.origin.dirspec", ":");
                        ("remote.origin.fetch", "refs/heads/main:x*")]
                       [] [])
           (DirSpec.mk "" ""));
    reflexivity.
Defined.

Lemma X19_init_refuses_nested_url_witness :
  fst (RemoteSubdirHelper.__init__ FakeGit.Repo FakeGit.exec ".git" "origin"
         (FakeGit.start
            (FakeGit.mk [("remote.origin.url", "subdir:other");
                         ("remote.origin.dirspec", ":");
                         ("remote.origin.fetch", "+a*:b*")]
                        [] [])))
  = Raise (RemoteSubdirHelper.NestedSubdirRemote "origin").
Proof.
  apply (X19_init_refuses_nested_url FakeGit.Repo FakeGit.exec ".git"
           "origin" _ ("subdir:other" ++ Str.nl)%string
           (FakeGit.mk [("remote.origin.url", "subdir:other");
                        ("remote.origin.dirspec", ":");
                        ("remote.origin.fetch", "+a*:b*")]
                       [] [])
           (":" ++ Str.nl)%string 0%Z
           (FakeGit.mk [("remote.origin.url", "subdir:other");
                        ("remote.origin.dirspec", ":");
                        ("remote.origin.fetch", "+a*:b*")]
                       [] [])
           ("+a*:b*" ++ Str.nl)%string 0%Z
           (FakeGit.mk [("remote.origin.url", "subdir:other");
                        ("remote.origin.dirspec", ":");
                        ("remote.origin.fetch", "+a*:b*")]
                       [] [])
           (DirSpec.mk "" "") [RefSpec.mk "a" "b" true]);
    try reflexivity; discriminate.
Defined.

Lemma X20_init_refuses_foreign_namespace_witness :
  fst (RemoteSubdirHelper.__init__ FakeGit.Repo FakeGit.exec ".git" "origin"
         (FakeGit.start
            (FakeGit.mk [("remote.origin.url", "https://example/repo.git");
                         ("remote.origin.dirspec", ":");
                         ("remote.origin.fetch", "+refs/heads/*:refs/heads/*")]
                        [] [])))
  = Raise (ValueError
             ("Cannot work with refspec +refs/heads/*:refs/heads/*. "
              ++ "The right side does not start with refs/remotes/origin/!")).
Proof.
  apply (X20_init_refuses_foreign_namespace FakeGit.Repo FakeGit.exec ".git"
           "origin" _ ("https://example/repo.git" ++ Str.nl)%string
           (FakeGit.mk [("remote.origin.url", "https://example/repo.git");
                        ("remote.origin.dirspec", ":");
                        ("remote.origin.fetch", "+refs/heads/*:refs/heads/*")]
                       [] [])
           (":" ++ Str.nl)%string 0%Z
           (FakeGit.mk [("remote.origin.url", "https://example/repo.git");
                        ("remote.origin.dirspec", ":");
                        ("remote.origin.fetch", "+refs/heads/*:refs/heads/*")]
                       [] [])
           ("+refs/heads/*:refs/heads/*" ++ Str.nl)%string 0%Z
           (FakeGit.mk [("remote.origin.url", "https://example/repo.git");
                        ("remote.origin.dirspec", ":");
                        ("remote.origin.fetch", "+refs/heads/*:refs/heads/*")]
                       [] [])
           (DirSpec.mk "" "") [] []
           (RefSpec.mk "refs/heads/" "refs/heads/" true));
    try reflexivity.
  constructor.
Defined.

Lemma X21_init_succeeds_witness :
  RemoteSubdirHelper.__init__ FakeGit.Repo FakeGit.exec ".git" "origin"
    (FakeGit.start FakeGit.origin_repo)
  = (Ok Scenario.helper,
     after_call
       (after_call
          (after_call (FakeGit.start FakeGit.origin_repo)
             (config_argv ".git" "remote.origin.url") FakeGit.origin_repo)
          (config_argv ".git" "remote.origin.dirspec") FakeGit.origin_repo)
       (config_argv ".git" "remote.origin.fetch") FakeGit.origin_repo).
Proof.
  apply (X21_init_succeeds FakeGit.Repo FakeGit.exec ".git" "origin"
           (FakeGit.start FakeGit.origin_repo)
           ("https://example/repo.git" ++ Str.nl)%string FakeGit.origin_repo
           (":" ++ Str.nl)%string 0%Z FakeGit.origin_repo
           ("+refs/heads/*:refs/remotes/origin/*" ++ Str.nl)%string 0%Z
           FakeGit.origin_repo (DirSpec.mk "" "") [Scenario.refspec]);
    try reflexivity; [discriminate | repeat constructor].
Defined.

(** ** What every action does to the world *)

Section Preservation.

Variable E : Type.
Variable exec : list string -> E -> string * Z * E.
Variable R : World E -> World E -> Prop.
Hypothesis R_refl : forall w, R w w.
Hypothesis R_trans : forall w1 w2 w3, R w1 w2 -> R w2 w3 -> R w1 w3.
Hypothesis R_call : forall w argv e', R w (after_call w argv e').

Lemma preserves_ret {A} (a : A) : preserves R (ret a).
Proof. intros w; apply R_refl. Qed.

Lemma preserves_raise {A} (e : exn) : preserves R (@raise E A e).
Proof. intros w; apply R_refl. Qed.

Lemma preserves_lift {A} (r : result A) : preserves R (lift r).
Proof. intros w; apply R_refl. Qed.

Lemma preserves_bind {A B} (m : M E A) (k : A -> M E B) :
  preserves R m -> (forall a, preserves R (k a)) -> preserves R (bind m k).
Proof.
  intros Hm Hk w; unfold bind.
  specialize (Hm w); destruct (m w) as [[a|e] w']; simpl in *.
  - eapply R_trans; [exact Hm | apply Hk].
  - exact Hm.
Qed.

Lemma preserves_except {A} (m h : M E A) :
  preserves R m -> preserves R h ->
  preserves R (except_CalledProcessError m h).
Proof.
  intros Hm Hh w; unfold except_CalledProcessError.
  specialize (Hm w); destruct (m w) as [[a|e] w']; simpl in *;
    [exact Hm|].
  destruct e; try exact Hm.
  eapply R_trans; [exact Hm | apply Hh].
Qed.

Lemma preserves_for_each {A} (body : A -> M E unit) (xs : list A) :
  (forall x, preserves R (body x)) -> preserves R (for_each body xs).
Proof.
  intros Hbody; induction xs as [|x xs IH]; simpl.
  - apply preserves_ret.
  - apply preserves_bind; [apply Hbody | intros _; exact IH].
Qed.

Lemma preserves_Popen (argv : list string) :
  preserves R (Popen E exec argv).
Proof.
  intros w; unfold Popen.
  destruct (exec argv (env w)) as [[out rc] e']; apply R_call.
Qed.

Lemma preserves_check_output (argv : list string) :
  preserves R (check_output E exec argv).
Proof.
  apply preserves_bind; [apply preserves_Popen|].
  intros [out rc]; destruct (rc =? 0)%Z;
    [apply preserves_ret | apply preserves_raise].
Qed.

Lemma preserves_check_call (argv : list string) :
  preserves R (check_call E exec argv).
Proof.
  apply preserves_bind; [apply preserves_Popen|].
  intros [out rc]; destruct (rc =? 0)%Z;
    [apply preserves_ret | apply preserves_raise].
Qed.

Lemma preserves_check_output_lines (argv : list string) :
  preserves R (check_output_lines E exec argv).
Proof.
  apply preserves_bind; [apply preserves_Popen|].
  intros [out rc]; apply preserves_ret.
Qed.

Lemma preserves_config_get_one (git : Git.t) (key : string) :
  preserves R (Git.config_get_one E exec git key).
Proof.
  apply preserves_except; [|apply preserves_ret].
  apply preserves_bind; [apply preserves_check_output|].
  intros out; apply preserves_ret.
Qed.

Lemma preserves_config_get_all (git : Git.t) (key : string) :
  preserves R (Git.config_get_all E exec git key).
Proof.
  apply preserves_bind; [apply preserves_check_output_lines|].
  intros [lines last]; apply preserves_ret.
Qed.

Lemma preserves_refs (git : Git.t) (pattern : string) :
  preserves R (Git.refs E exec git pattern).
Proof.
  apply preserves_bind; [apply preserves_check_output_lines|].
  intros [lines last]; apply preserves_ret.
Qed.

Lemma preserves_init (git_dir remote : string) :
  preserves R (RemoteSubdirHelper.__init__ E exec git_dir remote).
Proof.
  unfold RemoteSubdirHelper.__init__.
  apply preserves_bind; [apply preserves_config_get_one|]; intros url.
  apply preserves_bind; [apply preserves_config_get_one|]; intros ds.
  apply preserves_bind; [apply preserves_lift|]; intros dirspec.
  apply preserves_bind; [apply preserves_config_get_all|];
    intros [lines last].
  apply preserves_bind; [apply preserves_lift|]; intros refspecs.
  destruct url as [url|]; [|apply preserves_raise].
  destruct (negb _); [apply preserves_raise|].
  destruct (Str.startswith url "subdir:"); [apply preserves_raise|].
  apply preserves_bind; [apply preserves_lift|]; intros pairs.
  apply preserves_ret.
Qed.

Hypothesis R_write : forall w s, R w (after_write w s).
Hypothesis R_flush : forall w, R w (flushed w).

Lemma preserves_write (s : string) : preserves R (@write E s).
Proof. intros w; apply R_write. Qed.

Lemma preserves_flush : preserves R (@flush E).
Proof. intros w; apply R_flush. Qed.

Lemma preserves_do_list (self : RemoteSubdirHelper.t) :
  preserves R (RemoteSubdirHelper.do_list E exec self).
Proof.
  unfold RemoteSubdirHelper.do_list.
  apply preserves_bind; [apply preserves_check_call|]; intros _.
  apply preserves_bind; [apply preserves_refs|]; intros g.
  apply preserves_bind; [|intros _; apply preserves_write].
  unfold for_in.
  apply preserves_bind.
  - apply preserves_for_each; intros [value ref].
    apply preserves_bind; [apply preserves_lift|]; intros r.
    apply preserves_write.
  - intros _; destruct (snd g); [apply preserves_raise | apply preserves_ret].
Qed.

Lemma preserves_call_method (self : RemoteSubdirHelper.t) (name : string)
    (args : list string) :
  preserves R (RemoteSubdirHelper.call_method E exec self name args).
Proof.
  unfold RemoteSubdirHelper.call_method.
  destruct (String.eqb name "do_capabilities").
  { destruct args; [|apply preserves_raise].
    apply preserves_bind; [|intros _]; apply preserves_write. }
  destruct (String.eqb name "do_list").
  { destruct args; [apply preserves_do_list | apply preserves_raise]. }
  destruct (String.eqb name "do_fetch"); [|apply preserves_raise].
  destruct args as [|sha1 [|ref [|extra args]]]; apply preserves_raise.
Qed.

Lemma preserves_process_lines (self : RemoteSubdirHelper.t)
    (lines : list string) :
  preserves R (RemoteSubdirHelper.process_lines E exec self lines).
Proof.
  induction lines as [|cmdline rest IH]; simpl; [apply preserves_ret|].
  destruct (_ || _); [apply preserves_ret|].
  destruct (Str.split_ws (Str.rstrip cmdline)) as [|cmd args];
    [apply preserves_raise|].
  apply preserves_bind; [apply preserves_call_method|]; intros _.
  apply preserves_bind; [apply preserves_flush|]; intros _.
  exact IH.
Qed.

Lemma preserves_main (GIT_DIR remote_or_url in_f : string) :
  preserves R (RemoteSubdirHelper.main E exec GIT_DIR remote_or_url in_f).
Proof.
  apply preserves_bind; [apply preserves_init|]; intros helper.
  apply preserves_process_lines.
Qed.

End Preservation.

Section WorldOrder.

Variable E : Type.

Lemma extends_refl (w : World E) : extends w w.
Proof.
  repeat split; [exists ""%string | exists ""%string | exists []];
    now rewrite ?append_nil_r, ?app_nil_r.
Qed.

Lemma extends_trans (w1 w2 w3 : World E) :
  extends w1 w2 -> extends w2 w3 -> extends w1 w3.
Proof.
  intros ([s1 H1] & [d1 D1] & [c1 C1]) ([s2 H2] & [d2 D2] & [c2 C2]).
  repeat split.
  - exists (s1 ++ s2)%string; now rewrite H2, H1, append_assoc.
  - exists (d1 ++ d2)%string; now rewrite D2, D1, append_assoc.
  - exists (c1 ++ c2)%list; now rewrite C2, C1, app_assoc.
Qed.

Lemma extends_call (w : World E) argv e' : extends w (after_call w argv e').
Proof.
  repeat split; [exists ""%string | exists ""%string | exists [argv]];
    simpl; now rewrite ?append_nil_r.
Qed.

Lemma extends_write (w : World E) s : extends w (after_write w s).
Proof.
  repeat split; [exists s | exists ""%string | exists []];
    unfold written; simpl; now rewrite ?append_nil_r, ?append_assoc,
                                   ?app_nil_r.
Qed.

Lemma extends_flush (w : World E) : extends w (flushed w).
Proof.
  repeat split;
    [exists ""%string | exists (pending (out_f w)) | exists []];
    unfold written; simpl; now rewrite ?append_nil_r, ?app_nil_r.
Qed.

Lemma same_output_trans (w1 w2 w3 : World E) :
  same_output w1 w2 -> same_output w2 w3 -> same_output w1 w3.
Proof. unfold same_output; congruence. Qed.

End WorldOrder.

(** ** More on the session *)

Section MoreSession.

Variable E : Type.
Variable exec : list string -> E -> string * Z * E.

(** X22 (configuration errors come first): the constructor never
    touches the output file, and when it raises, [main] raises the same
    error in the same world: no command line is read and nothing is
    written. *)
Theorem X22_init_failure_aborts_main (GIT_DIR remote in_f : string)
    (w w' : World E) (e : exn) :
  RemoteSubdirHelper.__init__ E exec GIT_DIR remote w = (Raise e, w') ->
  RemoteSubdirHelper.main E exec GIT_DIR remote in_f w = (Raise e, w')
  /\ out_f w' = out_f w.
Proof.
  intros Hinit; split.
  - unfold RemoteSubdirHelper.main, bind; now rewrite Hinit.
  - pose proof (preserves_init E exec same_output
                  (fun w => eq_refl) (same_output_trans E)
                  (fun w argv e' => eq_refl) GIT_DIR remote w) as H.
    now rewrite Hinit in H.
Qed.

(** X23 (the end of the command stream): an empty input and an input
    that starts with a blank line both end the session at once with no
    error, no output and no subprocess; whatever follows the blank line
    is not read. *)
Theorem X23_blank_line_ends_session (self : RemoteSubdirHelper.t)
    (rest : string) (w : World E) :
  RemoteSubdirHelper.process_commands E exec self "" w = (Ok tt, w)
  /\ RemoteSubdirHelper.process_commands E exec self (Str.nl ++ rest) w
     = (Ok tt, w).
Proof. split; reflexivity. Qed.

Lemma command_line_not_blank (cmdline cmd : string) (args : list string) :
  Str.split_ws (Str.rstrip cmdline) = cmd :: args ->
  String.eqb cmdline "" || String.eqb cmdline Str.nl = false.
Proof.
  intros H.
  destruct (String.eqb_spec cmdline "") as [->|_]; [discriminate|].
  destruct (String.eqb_spec cmdline Str.nl) as [->|_]; [discriminate|].
  reflexivity.
Qed.

Lemma process_lines_dispatch (self : RemoteSubdirHelper.t)
    (cmdline cmd : string) (args rest : list string) :
  Str.split_ws (Str.rstrip cmdline) = cmd :: args ->
  RemoteSubdirHelper.process_lines E exec self (cmdline :: rest)
  = (RemoteSubdirHelper.call_method E exec self ("do_" ++ cmd) args ;;
     flush ;;
     RemoteSubdirHelper.process_lines E exec self rest).
Proof.
  intros H; cbn [RemoteSubdirHelper.process_lines].
  now rewrite (command_line_not_blank _ _ _ H), H.
Qed.

(** X24 (an unknown command): a command line whose first word is not
    [capabilities], [list] or [fetch] ends the session in the
    AttributeError of the failed lookup of [do_<word>]; nothing is
    written and no subprocess is run. *)
Theorem X24_unknown_command (self : RemoteSubdirHelper.t)
    (cmdline cmd : string) (args rest : list string) (w : World E) :
  Str.split_ws (Str.rstrip cmdline) = cmd :: args ->
  is_command cmd = false ->
  RemoteSubdirHelper.process_lines E exec self (cmdline :: rest) w
  = (Raise (AttributeError
              ("'RemoteSubdirHelper' object has no attribute 'do_"
               ++ cmd ++ "'")), w).
Proof.
  intros Hargs Hcmd.
  rewrite (process_lines_dispatch _ _ _ _ _ Hargs).
  unfold is_command in Hcmd.
  apply orb_false_elim in Hcmd as [Hcmd Hfetch].
  apply orb_false_elim in Hcmd as [Hcap Hlist].
  unfold bind at 1, RemoteSubdirHelper.call_method.
  change (String.eqb ("do_" ++ cmd) "do_capabilities")
    with (String.eqb cmd "capabilities").
  change (String.eqb ("do_" ++ cmd) "do_list") with (String.eqb cmd "list").
  change (String.eqb ("do_" ++ cmd) "do_fetch")
    with (String.eqb cmd "fetch").
  now rewrite Hcap, Hlist, Hfetch.
Qed.

(** X25 (a wrong number of arguments): [capabilities] and [list]
    followed by any argument, and [fetch] followed by anything but
    exactly two arguments, end the session in a TypeError; the handler
    is not run, nothing is written and no subprocess is run. *)
Theorem X25_wrong_arity (self : RemoteSubdirHelper.t)
    (cmdline cmd : string) (args rest : list string) (w : World E) :
  Str.split_ws (Str.rstrip cmdline) = cmd :: args ->
  (cmd = "capabilities" /\ args <> [])
  \/ (cmd = "list" /\ args <> [])
  \/ (cmd = "fetch" /\ length args <> 2) ->
  exists msg,
    RemoteSubdirHelper.process_lines E exec self (cmdline :: rest) w
    = (Raise (TypeError msg), w).
Proof.
  intros Hargs Hcase.
  rewrite (process_lines_dispatch _ _ _ _ _ Hargs).
  unfold bind at 1, RemoteSubdirHelper.call_method.
  destruct Hcase as [[-> Hne]|[[-> Hne]|[-> Hne]]]; cbn.
  - destruct args; [now destruct Hne | eexists; reflexivity].
  - destruct args; [now destruct Hne | eexists; reflexivity].
  - destruct args as [|a [|b [|c args]]]; try (eexists; reflexivity).
    now destruct Hne.
Qed.

(** X26 (a [capabilities] command inside a session): the response
    [*fetch], newline, newline is written and flushed, so that all
    output so far is handed over, and the session goes on with the next
    line. *)
Theorem X26_capabilities_then_continue (self : RemoteSubdirHelper.t)
    (cmdline : string) (rest : list string) (w : World E) :
  Str.split_ws (Str.rstrip cmdline) = ["capabilities"] ->
  RemoteSubdirHelper.process_lines E exec self (cmdline :: rest) w
  = RemoteSubdirHelper.process_lines E exec self rest
      (flushed (after_write w ("*fetch" ++ Str.nl ++ Str.nl))).
Proof.
  intros Hargs.
  rewrite (process_lines_dispatch _ _ _ _ _ Hargs).
  change (RemoteSubdirHelper.call_method E exec self
            ("do_" ++ "capabilities") [])
    with (RemoteSubdirHelper.do_capabilities E self).
  unfold RemoteSubdirHelper.do_capabilities, bind.
  now rewrite !write_spec, after_write_twice.
Qed.

(** X27 (nothing is left in the buffer): when a session that starts
    with an empty output buffer ends without error, everything that was
    written has been handed over. *)
Theorem X27_session_output_is_flushed (self : RemoteSubdirHelper.t)
    (in_f : string) (w w' : World E) :
  pending (out_f w) = "" ->
  RemoteSubdirHelper.process_commands E exec self in_f w = (Ok tt, w') ->
  pending (out_f w') = "".
Proof.
  unfold RemoteSubdirHelper.process_commands.
  revert w; induction (Str.lines in_f) as [|cmdline rest IH];
    intros w Hw; cbn [RemoteSubdirHelper.process_lines].
  - intros H; injection H as <-; exact Hw.
  - destruct (_ || _); [intros H; injection H as <-; exact Hw|].
    destruct (Str.split_ws (Str.rstrip cmdline)) as [|cmd args];
      [discriminate|].
    unfold bind at 1.
    destruct (RemoteSubdirHelper.call_method E exec self _ args w)
      as [[[]|e] w1]; [|discriminate].
    unfold bind at 1, flush at 1.
    apply IH; reflexivity.
Qed.

(** X28 (the helper only adds): whatever the configuration, the input
    and the behaviour of git, and whether or not they end in an error,
    [main] and [process_commands] only append to the text written, only
    append to the text handed over, and only add to the list of
    subprocesses run. *)
Theorem X28_session_only_appends (GIT_DIR remote in_f : string)
    (self : RemoteSubdirHelper.t) (w : World E) :
  extends w (snd (RemoteSubdirHelper.main E exec GIT_DIR remote in_f w))
  /\ extends w
       (snd (RemoteSubdirHelper.process_commands E exec self in_f w)).
Proof.
  split.
  - apply (preserves_main E exec extends (extends_refl E) (extends_trans E)
             (extends_call E) (extends_write E) (extends_flush E)).
  - apply (preserves_process_lines E exec extends (extends_refl E)
             (extends_trans E) (extends_call E) (extends_write E)
             (extends_flush E)).
Qed.

End MoreSession.

Lemma X22_init_failure_aborts_main_witness :
  RemoteSubdirHelper.main FakeGit.Repo FakeGit.exec ".git" "origin"
    ("list" ++ Str.nl ++ Str.nl) (FakeGit.start FakeGit.no_dirspec_repo)
  = (Raise (AttributeError "'NoneType' object has no attribute 'split'"),
     after_call
       (after_call (FakeGit.start FakeGit.no_dirspec_repo)
          (config_argv ".git" "remote.origin.url") FakeGit.no_dirspec_repo)
       (config_argv ".git" "remote.origin.dirspec") FakeGit.no_dirspec_repo).
Proof.
  apply (X22_init_failure_aborts_main FakeGit.Repo FakeGit.exec ".git"
           "origin" ("list" ++ Str.nl ++ Str.nl)
           (FakeGit.start FakeGit.no_dirspec_repo)).
  reflexivity.
Defined.

Lemma X24_unknown_command_witness :
  RemoteSubdirHelper.process_lines FakeGit.Repo FakeGit.exec Scenario.helper
    [("bogus" ++ Str.nl)%string; Str.nl] (FakeGit.start FakeGit.origin_repo)
  = (Raise (AttributeError
              "'RemoteSubdirHelper' object has no attribute 'do_bogus'"),
     FakeGit.start FakeGit.origin_repo).
Proof.
  apply (X24_unknown_command FakeGit.Repo FakeGit.exec Scenario.helper
           ("bogus" ++ Str.nl) "bogus" []);
    reflexivity.
Defined.

Lemma X25_wrong_arity_witness :
  exists msg,
    RemoteSubdirHelper.process_lines FakeGit.Repo FakeGit.exec
      Scenario.helper [("fetch abc123" ++ Str.nl)%string]
      (FakeGit.start FakeGit.origin_repo)
    = (Raise (TypeError msg), FakeGit.start FakeGit.origin_repo).
Proof.
  apply (X25_wrong_arity FakeGit.Repo FakeGit.exec Scenario.helper
           ("fetch abc123" ++ Str.nl) "fetch" ["abc123"]);
    [reflexivity|].
  right; right; split; [reflexivity | discriminate].
Defined.

Lemma X26_capabilities_then_continue_witness :
  RemoteSubdirHelper.process_lines FakeGit.Repo FakeGit.exec Scenario.helper
    [("capabilities" ++ Str.nl)%string; Str.nl]
    (FakeGit.start FakeGit.origin_repo)
  = (Ok tt,
     mkWorld (mkFile ("*fetch" ++ Str.nl ++ Str.nl) "") []
             FakeGit.origin_repo).
Proof.
  apply (X26_capabilities_then_continue FakeGit.Repo FakeGit.exec
           Scenario.helper ("capabilities" ++ Str.nl) [Str.nl]
           (FakeGit.start FakeGit.origin_repo)).
  reflexivity.
Defined.

Lemma X27_session_output_is_flushed_witness :
  pending
    (out_f
       (flushed
          (after_write (FakeGit.start FakeGit.origin_repo)
             ("*fetch" ++ Str.nl ++ Str.nl))))
  = "".
Proof.
  apply (X27_session_output_is_flushed FakeGit.Repo FakeGit.exec
           Scenario.helper ("capabilities" ++ Str.nl ++ Str.nl)
           (FakeGit.start FakeGit.origin_repo));
    reflexivity.
Defined.
